(** * python_ags4 command line front end (ags4_cli.py)

    A shallow embedding of the two click subcommands [convert] and [check]
    of [src/python_ags4/ags4_cli.py], with the properties of their
    dispatch, reporting and file handling.

    Conventions of the embedding.
    - A Python [str] is a Rocq [string], its UTF-8 encoding.  The
      characters the program and the markup of rich inspect are ASCII ([.],
      the letters of the two extensions, the double quote, the letters of
      [true] and [yes], the brackets, the backslash, the slash and the
      equals sign of a tag), and a UTF-8 encoded text has the same
      suffixes, pieces and tags as its sequence of code points; white
      space is recognised in its encoded form.
    - Effects are explicit.  A command is a function from the file system
      to an outcome (a value or a raised exception), the new file system
      and the list of events it emitted, in order.  A print event records
      the string handed to [console.print] or [print].  [console.print]
      raises [MarkupError] on markup that rich refuses, and then prints
      nothing; how rich renders the markup it accepts is not part of the
      model.
    - The AGS4 library, [os.path], the writability of a path and what
      differs between the releases of rich are interfaces (type classes);
      the front end is verified against every implementation of them. *)

From Stdlib Require Import Ascii.
From stdpp Require Import gmap strings list pretty.

(** ** Python string methods used by the front end *)

Module Py.

(** The three characters that cannot be typed inside a literal. *)
Definition LF : string := String "010" "".
Definition TAB : string := String "009" "".
Definition DQUOTE : ascii := "034"%char.

(** [s.endswith(suffix)]: the last [len(suffix)] characters of [s] are
    [suffix]. *)
Definition endswith (s suffix : string) : bool :=
  let n := String.length s in
  let m := String.length suffix in
  (m <=? n) && String.eqb (String.substring (n - m) m s) suffix.

(** [s.split(sep)] for a one character separator. *)
Fixpoint split (sep : ascii) (s : string) : list string :=
  match s with
  | EmptyString => [""]
  | String c s' =>
      if Ascii.eqb c sep then "" :: split sep s'
      else match split sep s' with
           | piece :: pieces => String c piece :: pieces
           | [] => [String c ""]
           end
  end.

(** [s.lstrip(c)], [s.rstrip(c)] and [s.strip(c)] for a one character
    set. *)
Fixpoint lstrip (c : ascii) (s : string) : string :=
  match s with
  | EmptyString => ""
  | String a s' => if Ascii.eqb a c then lstrip c s' else s
  end.

Fixpoint rstrip (c : ascii) (s : string) : string :=
  match s with
  | EmptyString => ""
  | String a s' =>
      match rstrip c s' with
      | EmptyString => if Ascii.eqb a c then "" else String a ""
      | r => String a r
      end
  end.

Definition strip (c : ascii) (s : string) : string := rstrip c (lstrip c s).

(** [s.strip()]: the white space of [str.isspace] is removed at both
    ends.  [space_bytes] is the number of bytes of the white space
    character at the front of a UTF-8 encoded text, or 0: the ASCII white
    space, U+0085 and U+00A0 in two bytes, and U+1680, U+2000 to U+200A,
    U+2028, U+2029, U+202F, U+205F and U+3000 in three. *)
Definition is_space (c : ascii) : bool :=
  let n := nat_of_ascii c in
  ((9 <=? n) && (n <=? 13)) || ((28 <=? n) && (n <=? 32)).

Definition space_bytes (s : string) : nat :=
  match s with
  | String a (String b (String c _)) =>
      let n := nat_of_ascii a in
      let m := nat_of_ascii b in
      let k := nat_of_ascii c in
      if is_space a then 1
      else if (n =? 194) && ((m =? 133) || (m =? 160)) then 2
      else if (n =? 225) && (m =? 154) && (k =? 128) then 3
      else if (n =? 226) && (m =? 128)
              && (((128 <=? k) && (k <=? 138)) || (k =? 168) || (k =? 169)
                  || (k =? 175)) then 3
      else if (n =? 226) && (m =? 129) && (k =? 159) then 3
      else if (n =? 227) && (m =? 128) && (k =? 128) then 3
      else 0
  | String a (String b EmptyString) =>
      let n := nat_of_ascii a in
      let m := nat_of_ascii b in
      if is_space a then 1
      else if (n =? 194) && ((m =? 133) || (m =? 160)) then 2
      else 0
  | String a EmptyString => if is_space a then 1 else 0
  | EmptyString => 0
  end.

Fixpoint drop_bytes (n : nat) (s : string) : string :=
  match n, s with
  | S n', String _ s' => drop_bytes n' s'
  | _, _ => s
  end.

Fixpoint lstrip_ws_go (fuel : nat) (s : string) : string :=
  match fuel with
  | 0 => s
  | S fuel' =>
      match space_bytes s with
      | 0 => s
      | n => lstrip_ws_go fuel' (drop_bytes n s)
      end
  end.

Definition lstrip_ws (s : string) : string := lstrip_ws_go (String.length s) s.

(** A text is stripped at the right up to its last character that is not
    white space: what follows it strips to nothing at the left. *)
Fixpoint rstrip_ws (s : string) : string :=
  match s with
  | EmptyString => ""
  | String a s' =>
      match lstrip_ws s with
      | EmptyString => ""
      | _ => String a (rstrip_ws s')
      end
  end.

Definition strip_ws (s : string) : string := rstrip_ws (lstrip_ws s).

(** [s.partition('=')]: the text before the first [=], and the text after
    it when there is one. *)
Fixpoint partition_eq (s : string) : string * option string :=
  match s with
  | EmptyString => ("", None)
  | String c s' =>
      if Ascii.eqb c "=" then ("", Some s')
      else let (before, after) := partition_eq s' in (String c before, after)
  end.

(** [s.lower()]: the ASCII capitals are lowered, every other character
    is kept. *)
Definition lower_char (c : ascii) : ascii :=
  let n := nat_of_ascii c in
  if (65 <=? n) && (n <=? 90) then ascii_of_nat (n + 32) else c.

Fixpoint lower (s : string) : string :=
  match s with
  | EmptyString => ""
  | String c s' => String (lower_char c) (lower s')
  end.

(** [x in [a, b, ...]] on strings. *)
Definition str_in (x : string) (l : list string) : bool :=
  existsb (String.eqb x) l.

(** [str(n)] for a non-negative integer, and for any integer. *)
Definition str_of_nat (n : nat) : string := pretty n.
Definition str_of_Z (z : Z) : string := pretty z.

End Py.

(** ** The error report returned by the checker

    [AGS4.check_file] returns a dict from rule name to a list of entries,
    each entry a dict read at the keys ['line'], ['group'] and ['desc'] by
    [print_to_screen] and [save_to_file].  The line is formatted as it is
    (a number, or a text such as [-]); the group is a string, since it is
    stripped.  A dict iterates in insertion order and holds a key once: it
    is an association list whose keys are pairwise distinct ([dict_wf]). *)

Inductive line_ref : Type :=
  | LineNo (n : Z)
  | LineText (s : string).

Record entry : Type := Entry {
  entry_line : line_ref;
  entry_group : string;
  entry_desc : string
}.

Definition report : Type := list (string * list entry).

Definition dict_wf (d : report) : Prop := NoDup (d.*1).

(** ** Effects: exceptions, events, and the command monad *)

Inductive exn : Type :=
  | KeyError (key : string)
  | IndexError
  | OSError (path : string)
  | BadParameter (param value : string)
  | MarkupError (markup : string)
  | LibraryError (msg : string).

Inductive open_mode : Type := ModeR | ModeW.

Inductive event : Type :=
  | ConsolePrint (markup : string)
  | BuiltinPrint (text : string)
  | StatusStart (markup : string)
  | StatusStop
  | CallAGS4ToExcel (input_file output_file : string)
  | CallExcelToAGS4 (input_file output_file : string)
      (format_numeric_columns : bool) (dictionary : option string)
  | CallCheckFile (input_file standard_AGS4_dictionary : string)
  | FileOpen (path : string) (mode : open_mode)
  | FileWrite (path data : string)
  | FileClose (path : string).

Inductive outcome (A : Type) : Type :=
  | Returns (a : A)
  | Raises (e : exn).
Arguments Returns {A} a.
Arguments Raises {A} e.

Record run (A : Type) : Type := Run {
  result : outcome A;
  files_after : gmap string string;
  events : list event
}.
Arguments Run {A} result files_after events.
Arguments result {A} r.
Arguments files_after {A} r.
Arguments events {A} r.

Definition M (A : Type) : Type := gmap string string -> run A.

Definition ret {A} (a : A) : M A := fun fs => Run (Returns a) fs [].

Definition raise {A} (e : exn) : M A := fun fs => Run (Raises e) fs [].

Definition bind {A B} (m : M A) (k : A -> M B) : M B := fun fs =>
  let r := m fs in
  match result r with
  | Returns a =>
      let r' := k a (files_after r) in
      Run (result r') (files_after r') (events r ++ events r')
  | Raises e => Run (Raises e) (files_after r) (events r)
  end.

(** A [with] block: the exit action runs whether or not the body raises. *)
Definition with_exit {A} (body : M A) (on_exit : M unit) : M A := fun fs =>
  let r := body fs in
  let r' := on_exit (files_after r) in
  Run (match result r' with Returns _ => result r | Raises e => Raises e end)
      (files_after r') (events r ++ events r').

Definition emit (e : event) : M unit := fun fs => Run (Returns tt) fs [e].

Declare Scope cmd_scope.
Delimit Scope cmd_scope with cmd.
Notation "x <- c1 ;; c2" := (bind c1 (fun x => c2))
  (at level 100, c1 at next level, right associativity) : cmd_scope.
Notation "c1 ;; c2" := (bind c1 (fun _ => c2))
  (at level 100, right associativity) : cmd_scope.
Local Open Scope cmd_scope.

(** [for x in l: body(x)] *)
Fixpoint for_each {A} (l : list A) (body : A -> M unit) : M unit :=
  match l with
  | [] => ret tt
  | x :: l' => body x ;; for_each l' body
  end.

(** [d[key]] *)
Fixpoint dict_get (d : report) (key : string) : option (list entry) :=
  match d with
  | [] => None
  | (k, val) :: d' => if String.eqb k key then Some val else dict_get d' key
  end.

Definition dict_getitem (d : report) (key : string) : M (list entry) :=
  match dict_get d key with
  | Some val => ret val
  | None => raise (KeyError key)
  end.

(** [l[-1]] *)
Definition list_last_item (l : list string) : M string :=
  match last l with
  | Some x => ret x
  | None => raise IndexError
  end.

(** ** The collaborators *)

(** The AGS4 library: each function reads and writes files and returns or
    raises. *)
Class AGS4_library : Type := {
  lib_AGS4_to_excel :
    string -> string -> gmap string string -> outcome unit * gmap string string;
  lib_excel_to_AGS4 :
    string -> string -> bool -> option string ->
    gmap string string -> outcome unit * gmap string string;
  lib_check_file :
    string -> string -> gmap string string -> outcome report * gmap string string
}.

(** The platform: [os.path] and whether [open(path, 'w')] succeeds. *)
Class Platform : Type := {
  os_path_dirname : string -> string;
  os_path_join : string -> string -> string;
  can_write : string -> bool
}.

(** ** The rich console: which markup [console.print] refuses

    [console.print(markup)] renders its argument with
    [rich.markup.render], which raises [MarkupError] on a closing tag that
    closes nothing.  As in [rich.markup], a tag is an opening bracket, a
    first character that is a lower case letter, a hash, a slash or an at
    sign, and the shortest text up to a closing bracket; backslashes before
    the bracket are counted, and an odd number of them makes the tag plain
    text.  The render keeps a stack of the open tags.  What releases of
    rich do differently, and the two parts of rich that are not written
    out here, are the fields of [Rich]. *)
Class Rich : Type := {
  (** a tag may start with [@] (later releases) *)
  at_sign_tags : bool;
  (** a tag may run over an opening bracket (earlier releases), or over
      a line feed (later releases) *)
  bracket_in_tag : bool;
  newline_in_tag : bool;
  (** [Style.normalize] *)
  style_normalize : string -> string;
  (** whether closing a [@] handler tag with these parameters fails to
      evaluate them *)
  handler_error : string -> bool
}.

Section Markup.

Context {rich : Rich}.

Definition is_lower (c : ascii) : bool :=
  let n := nat_of_ascii c in (97 <=? n) && (n <=? 122).

(** The first character of a tag, and the characters it may hold before
    its closing bracket. *)
Definition tag_first (c : ascii) : bool :=
  is_lower c || Ascii.eqb c "#" || Ascii.eqb c "/"
  || (Ascii.eqb c "@" && at_sign_tags).

Definition tag_inner (c : ascii) : bool :=
  if Ascii.eqb c "[" then bracket_in_tag
  else if Ascii.eqb c "010" then newline_in_tag
  else true.

(** The rest of a tag after its first character: the text up to the
    first closing bracket. *)
Fixpoint tag_rest (s : string) : option string :=
  match s with
  | EmptyString => None
  | String c s' =>
      if Ascii.eqb c "]" then Some ""
      else if tag_inner c then String c <$> tag_rest s'
      else None
  end.

(** The tag that starts at an opening bracket followed by [s]. *)
Definition tag_text (s : string) : option string :=
  match s with
  | EmptyString => None
  | String c s' => if tag_first c then String c <$> tag_rest s' else None
  end.

(** [_parse]: the tags of a text, in order.  [escapes] counts the
    backslashes just before the character read; an odd number of them
    before a tag makes it plain text.  [skip] counts the characters left of
    the tag that was just matched. *)
Fixpoint tags_from (escapes skip : nat) (s : string) : list string :=
  match s with
  | EmptyString => []
  | String c s' =>
      match skip with
      | S skip' => tags_from 0 skip' s'
      | 0 =>
          if Ascii.eqb c "092" then tags_from (S escapes) 0 s'
          else if Ascii.eqb c "[" then
            match tag_text s' with
            | Some t =>
                (if Nat.even escapes then [t] else [])
                ++ tags_from 0 (S (String.length t)) s'
            | None => tags_from 0 0 s'
            end
          else tags_from 0 0 s'
      end
  end.

(** An open tag on the style stack: its normalized name and its
    parameters. *)
Record open_tag : Type := { open_name : string; open_parameters : option string }.

(** [pop_style]: the nearest open tag of that name leaves the stack. *)
Fixpoint pop_style (style_name : string) (stack : list open_tag)
    : option (open_tag * list open_tag) :=
  match stack with
  | [] => None
  | t :: stack' =>
      if String.eqb (open_name t) style_name then Some (t, stack')
      else match pop_style style_name stack' with
           | Some (found, rest) => Some (found, t :: rest)
           | None => None
           end
  end.

Definition starts_with_at (s : string) : bool :=
  match s with
  | String c _ => Ascii.eqb c "@"
  | EmptyString => false
  end.

(** Closing a handler tag evaluates its parameters. *)
Definition close_error (t : open_tag) : bool :=
  match open_parameters t with
  | Some parameters =>
      negb (String.eqb parameters "") && starts_with_at (open_name t)
      && handler_error parameters
  | None => false
  end.

(** The loop of [render] over the tags: whether it raises. *)
Fixpoint stack_error (tags : list string) (stack : list open_tag) : bool :=
  match tags with
  | [] => false
  | t :: tags' =>
      let (tag_name, parameters) := Py.partition_eq t in
      match tag_name with
      | String "/" closed =>
          let style_name := Py.strip_ws closed in
          let popped :=
            if String.eqb style_name "" then
              match stack with
              | [] => None
              | top :: stack' => Some (top, stack')
              end
            else pop_style (style_normalize style_name) stack in
          match popped with
          | None => true
          | Some (opened, stack') => close_error opened || stack_error tags' stack'
          end
      | _ =>
          stack_error tags'
            ({| open_name := style_normalize tag_name;
                open_parameters := parameters |} :: stack)
      end
  end.

(** Whether [console.print(markup)] raises [MarkupError]. *)
Definition markup_error (markup : string) : bool :=
  stack_error (tags_from 0 0 markup) [].

(** ** Primitive actions *)

(** [console.print(markup)] of the rich console and the builtin [print]. *)
Definition console_print (markup : string) : M unit :=
  if markup_error markup then raise (MarkupError markup)
  else emit (ConsolePrint markup).

Definition builtin_print (text : string) : M unit := emit (BuiltinPrint text).

(** [with console.status(markup): body]: the status text is markup too. *)
Definition with_console_status {A} (markup : string) (body : M A) : M A :=
  if markup_error markup then raise (MarkupError markup)
  else emit (StatusStart markup) ;; with_exit body (emit StatusStop).

End Markup.

Section FrontEnd.

Context {ags4 : AGS4_library} {platform : Platform} {rich : Rich}.

Definition AGS4_to_excel (input_file output_file : string) : M unit := fun fs =>
  let (r, fs') := lib_AGS4_to_excel input_file output_file fs in
  Run r fs' [CallAGS4ToExcel input_file output_file].

Definition excel_to_AGS4 (input_file output_file : string)
    (format_numeric_columns : bool) (dictionary : option string) : M unit := fun fs =>
  let (r, fs') :=
    lib_excel_to_AGS4 input_file output_file format_numeric_columns dictionary fs in
  Run r fs' [CallExcelToAGS4 input_file output_file format_numeric_columns dictionary].

Definition check_file (input_file standard_AGS4_dictionary : string) : M report :=
  fun fs =>
  let (r, fs') := lib_check_file input_file standard_AGS4_dictionary fs in
  Run r fs' [CallCheckFile input_file standard_AGS4_dictionary].

(** [open(path, 'w')]: the file is created or truncated, or the call
    raises. *)
Definition open_w (path : string) : M unit := fun fs =>
  if can_write path then Run (Returns tt) (<[path := ""]> fs) [FileOpen path ModeW]
  else Run (Raises (OSError path)) fs [].

(** [f.write(data)] on the file opened at [path]. *)
Definition file_write (path data : string) : M unit := fun fs =>
  Run (Returns tt) (<[path := default "" (fs !! path) +:+ data]> fs)
      [FileWrite path data].

(** [with open(path, 'w', ...) as f: body] *)
Definition with_open_w (path : string) (body : M unit) : M unit :=
  open_w path ;; with_exit body (emit (FileClose path)).

(** *** click parameter types *)

(** What the callback reads of a file object is its [name]. *)
Record File : Type := { name : string }.

(** [click.File('r')]: ['-'] is standard input, any other value is opened
    for reading. *)
Definition click_File_r (param value : string) : M File := fun fs =>
  if String.eqb value "-" then Run (Returns {| name := "<stdin>" |}) fs []
  else match fs !! value with
       | Some _ => Run (Returns {| name := value |}) fs [FileOpen value ModeR]
       | None => Run (Raises (BadParameter param value)) fs []
       end.

(** [click.File('w', lazy=False)]: ['-'] is standard output, any other
    value is opened for writing while the parameter is converted. *)
Definition click_File_w_eager (param value : string) : M File := fun fs =>
  if String.eqb value "-" then Run (Returns {| name := "<stdout>" |}) fs []
  else if can_write value
       then Run (Returns {| name := value |}) (<[value := ""]> fs) [FileOpen value ModeW]
       else Run (Raises (BadParameter param value)) fs [].

(** *** [convert] *)

Definition msg_opening (input_file : string) : string :=
  "[green]Opening file... [bold]" +:+ input_file +:+ "[/bold][/green]".

Definition msg_exporting (output_file : string) : string :=
  "[green]Exporting data to... [bold]" +:+ output_file +:+ "[/bold][/green]".

Definition msg_conversion_complete : string :=
  Py.LF +:+ "[green]File conversion complete! :heavy_check_mark:[/green]" +:+ Py.LF.

Definition msg_same_type (file_type : string) : string :=
  "[yellow]Both input and output files are of the same type (i.e. [bold]."
  +:+ file_type +:+ "[/bold]). No conversion necessary.[/yellow]".

Definition msg_invalid_filenames : string := "[red]ERROR: Invalid filenames.[/red]".

Definition msg_try_help : string :=
  "[red]Try " +:+ String Py.DQUOTE "ags4_cli convert --help"
  +:+ String Py.DQUOTE " to see help and examples.[/red]".

(** The callback of the [convert] subcommand. *)
Definition convert (input_file output_file : File) (format_columns : string)
    (dictionary : option File) : M unit :=
  let input_file := name input_file in
  let output_file := name output_file in
  if Py.endswith input_file ".ags" && Py.endswith output_file ".xlsx" then
    console_print (msg_opening input_file) ;;
    console_print (msg_exporting output_file) ;;
    builtin_print "" ;;
    AGS4_to_excel input_file output_file ;;
    console_print msg_conversion_complete
  else if Py.endswith input_file ".xlsx" && Py.endswith output_file ".ags" then
    console_print (msg_opening input_file) ;;
    console_print (msg_exporting output_file) ;;
    builtin_print "" ;;
    let format_numeric_columns :=
      Py.str_in (Py.lower format_columns) ["true"; "yes"] in
    let dictionary :=
      match dictionary with
      | Some d => Some (name d)
      | None => None
      end in
    excel_to_AGS4 input_file output_file format_numeric_columns dictionary ;;
    console_print msg_conversion_complete
  else if (Py.endswith input_file ".ags" && Py.endswith output_file ".ags")
          || (Py.endswith input_file ".xlsx" && Py.endswith output_file ".xlsx") then
    file_type <- list_last_item (Py.split "." input_file) ;;
    console_print (msg_same_type file_type)
  else
    console_print msg_invalid_filenames ;;
    console_print msg_try_help.

(** The [convert] subcommand as click runs it.  Parameters are converted
    before the callback is called: an option given on the command line
    first, then the arguments in their order; the first conversion that
    fails ends the command with a usage error.  [format_columns] is a
    plain string and defaults to ["true"]; [dictionary] defaults to
    [None].  The files click opened are closed once the callback is done,
    which changes no content. *)
Definition convert_command (input_file output_file : string)
    (format_columns : option string) (dictionary : option string) : M unit :=
  dictionary <- match dictionary with
                | Some d => f <- click_File_r "dictionary" d ;; ret (Some f)
                | None => ret None
                end ;;
  input_file <- click_File_r "input_file" input_file ;;
  output_file <- click_File_w_eager "output_file" output_file ;;
  convert input_file output_file (default "true" format_columns) dictionary.

(** *** [check] *)

Definition fmt_line (l : line_ref) : string :=
  match l with
  | LineNo n => Py.str_of_Z n
  | LineText s => s
  end.

Definition msg_no_errors : string :=
  Py.LF +:+ "[green]File check complete! No errors found. :heavy_check_mark:[/green]"
  +:+ Py.LF.

Definition msg_errors_found (error_count : nat) : string :=
  Py.LF +:+ "[yellow]File check complete! " +:+ Py.str_of_nat error_count
  +:+ " errors found![/yellow]".

Definition msg_saved_dot (output_file : string) : string :=
  Py.LF +:+ "[yellow]Error report saved in " +:+ output_file +:+ ".[/yellow]" +:+ Py.LF.

Definition msg_saved (output_file : string) : string :=
  Py.LF +:+ "[yellow]Error report saved in " +:+ output_file +:+ "[/yellow]" +:+ Py.LF.

Definition msg_too_long : string :=
  Py.LF +:+ "[yellow]Error report too long to print to screen.[/yellow]".

Definition msg_only_ags : string :=
  "[red]ERROR: Only .ags files are accepted as input.[/red]".

Definition screen_key (key : string) : string :=
  "[underline]" +:+ key +:+ "[/underline]:".

Definition screen_entry (e : entry) : string :=
  "  Line " +:+ fmt_line (entry_line e) +:+ Py.TAB +:+ " [bold]"
  +:+ Py.strip Py.DQUOTE (entry_group e) +:+ "[/bold]" +:+ Py.TAB +:+ " "
  +:+ entry_desc e.

Definition log_key (key : string) : string := key +:+ ":" +:+ Py.LF.

Definition log_entry (e : entry) : string :=
  "  Line " +:+ fmt_line (entry_line e) +:+ Py.TAB +:+ " "
  +:+ Py.strip Py.DQUOTE (entry_group e) +:+ Py.TAB +:+ " "
  +:+ entry_desc e +:+ Py.LF.

Definition print_to_screen (ags_errors : report) : M unit :=
  for_each (ags_errors.*1) (fun key =>
    console_print (screen_key key) ;;
    val <- dict_getitem ags_errors key ;;
    for_each val (fun entry => console_print (screen_entry entry)) ;;
    console_print "").

Definition save_to_file (output_file : string) (ags_errors : report)
    (input_file : string) (error_count : nat) : M unit :=
  with_open_w output_file (
    file_write output_file ("Input file: " +:+ input_file +:+ Py.LF) ;;
    file_write output_file (Py.str_of_nat error_count +:+ " errors found!" +:+ Py.LF) ;;
    file_write output_file Py.LF ;;
    for_each (ags_errors.*1) (fun key =>
      file_write output_file (log_key key) ;;
      val <- dict_getitem ags_errors key ;;
      for_each val (fun entry => file_write output_file (log_entry entry)) ;;
      file_write output_file Py.LF)).

(** [error_count = 0; for key, val in ags_errors.items(): error_count += len(val)] *)
Definition count_errors (ags_errors : report) : nat :=
  fold_left (fun error_count kv => error_count + length kv.2) ags_errors 0.

(** The callback of the [check] subcommand. *)
Definition check (input_file dictionary : string) (output_file : option string)
    : M unit :=
  if Py.endswith input_file ".ags" then
    console_print (msg_opening input_file) ;;
    console_print "" ;;
    ags_errors <- with_console_status "[bold green]Checking file..."
                    (check_file input_file dictionary) ;;
    match ags_errors with
    | [] => console_print msg_no_errors
    | _ :: _ =>
        let error_count := count_errors ags_errors in
        if error_count <? 100 then
          print_to_screen ags_errors ;;
          console_print (msg_errors_found error_count) ;;
          match output_file with
          | Some output_file =>
              save_to_file output_file ags_errors input_file error_count ;;
              console_print (msg_saved_dot output_file)
          | None => ret tt
          end
        else
          console_print (msg_errors_found error_count) ;;
          console_print msg_too_long ;;
          let output_file :=
            match output_file with
            | None =>
                let output_dir := os_path_dirname input_file in
                os_path_join output_dir "error_log.txt"
            | Some output_file => output_file
            end in
          save_to_file output_file ags_errors input_file error_count ;;
          console_print (msg_saved output_file)
    end
  else
    console_print msg_only_ags.

End FrontEnd.

(** ** Instances used to run the model *)

(** [os.path] on POSIX (posixpath.py). *)
Module posixpath.

(** [p[:p.rfind('/') + 1]] *)
Fixpoint head (p : string) : string :=
  match p with
  | EmptyString => ""
  | String c p' =>
      match head p' with
      | EmptyString => if Ascii.eqb c "/" then "/" else ""
      | h => String c h
      end
  end.

Fixpoint all_sep (s : string) : bool :=
  match s with
  | EmptyString => true
  | String c s' => Ascii.eqb c "/" && all_sep s'
  end.

Definition dirname (p : string) : string :=
  let head := head p in
  if negb (String.eqb head "") && negb (all_sep head)
  then Py.rstrip "/" head
  else head.

Definition startswith_sep (s : string) : bool :=
  match s with
  | String c _ => Ascii.eqb c "/"
  | EmptyString => false
  end.

Definition join (a b : string) : string :=
  if startswith_sep b then b
  else if String.eqb a "" || Py.endswith a "/" then a +:+ b
  else a +:+ "/" +:+ b.

End posixpath.

(** A POSIX platform on which every path but those under [/proc/] can be
    opened for writing. *)
Definition posix_platform : Platform := {|
  os_path_dirname := posixpath.dirname;
  os_path_join := posixpath.join;
  can_write := fun path =>
    negb (String.eqb (String.substring 0 6 path) "/proc/")
|}.

(** A console for running the model: a late release of rich, on style
    names that are no style definitions, which [Style.normalize] leaves
    stripped and lowered, and without handler tags that fail. *)
Definition rich_console : Rich := {|
  at_sign_tags := true;
  bracket_in_tag := false;
  newline_in_tag := true;
  style_normalize := fun style => Py.lower (Py.strip_ws style);
  handler_error := fun _ => false
|}.

(** A library double: the converters write a marker into the output file,
    the checker returns the given report. *)
Definition library_double (errors : outcome report) : AGS4_library := {|
  lib_AGS4_to_excel := fun input_file output_file fs =>
    (Returns tt, <[output_file := "xlsx"]> fs);
  lib_excel_to_AGS4 := fun input_file output_file _ _ fs =>
    (Returns tt, <[output_file := "ags"]> fs);
  lib_check_file := fun _ _ fs => (errors, fs)
|}.

(** A library whose every call raises. *)
Definition library_failing : AGS4_library := {|
  lib_AGS4_to_excel := fun _ _ fs => (Raises (LibraryError "AGS4_to_excel"), fs);
  lib_excel_to_AGS4 := fun _ _ _ _ fs => (Raises (LibraryError "excel_to_AGS4"), fs);
  lib_check_file := fun _ _ fs => (Raises (LibraryError "check_file"), fs)
|}.

Definition sample_entry (n : Z) : entry :=
  {| entry_line := LineNo n;
     entry_group := String Py.DQUOTE ("PROJ" +:+ String Py.DQUOTE "");
     entry_desc := "Description" |}.

Definition sample_report : report :=
  [ ("Rule 1", [sample_entry 3; sample_entry 1]);
    ("Rule 2", []);
    ("Rule 3", [ {| entry_line := LineText "-"; entry_group := "";
                    entry_desc := "UNIT group missing" |} ]) ].

Definition long_report : report :=
  [ ("Rule 1", [sample_entry 3]);
    ("Rule 4", replicate 99 (sample_entry 7)) ].


(** ** Vocabulary of the properties *)

(** The last character of a string. *)
Fixpoint last_char (s : string) : option ascii :=
  match s with
  | EmptyString => None
  | String a s' =>
      match last_char s' with
      | Some b => Some b
      | None => Some a
      end
  end.

(** The calls of a run to one of the two conversion functions. *)
Definition is_conversion_call (e : event) : bool :=
  match e with
  | CallAGS4ToExcel _ _ | CallExcelToAGS4 _ _ _ _ => true
  | _ => false
  end.

Definition conversion_calls (t : list event) : list event :=
  List.filter is_conversion_call t.

(** The sum, over the rule groups, of the number of their records. *)
Definition report_total (d : report) : nat :=
  sum_list_with (fun kv => length kv.2) d.

Definition str_concat (chunks : list string) : string :=
  foldr String.append "" chunks.

(** A command that only emits the events [evs]. *)
Definition emits (evs : list event) (m : M unit) : Prop :=
  forall fs, m fs = Run (Returns tt) fs evs.

(** A command that only appends [chunks], in order, to the open file
    [path]. *)
Definition writes (path : string) (chunks : list string) (m : M unit) : Prop :=
  forall fs c, fs !! path = Some c ->
    m fs = Run (Returns tt) (<[path := c +:+ str_concat chunks]> fs)
               (FileWrite path <$> chunks).

Section Reports.

Context {ags4 : AGS4_library} {platform : Platform}.

(** What the terminal shows of a report: group after group, the key, the
    records of the group in their order, and an empty line. *)
Definition screen_group (kv : string * list entry) : list event :=
  ConsolePrint (screen_key kv.1)
  :: (ConsolePrint ∘ screen_entry <$> kv.2) ++ [ConsolePrint ""].

Definition screen_report (d : report) : list event := d ≫= screen_group.

(** What the log file holds: two header lines, an empty line, then group
    after group. *)
Definition log_group (kv : string * list entry) : list string :=
  log_key kv.1 :: (log_entry <$> kv.2) ++ [Py.LF].

Definition log_chunks (input_file : string) (error_count : nat) (d : report)
    : list string :=
  [ "Input file: " +:+ input_file +:+ Py.LF;
    Py.str_of_nat error_count +:+ " errors found!" +:+ Py.LF;
    Py.LF ] ++ (d ≫= log_group).

Definition log_text (input_file : string) (error_count : nat) (d : report)
    : string :=
  str_concat (log_chunks input_file error_count d).

Definition save_events (path input_file : string) (error_count : nat)
    (d : report) : list event :=
  FileOpen path ModeW
  :: (FileWrite path <$> log_chunks input_file error_count d)
  ++ [FileClose path].

(** The events of [check] up to the return of the checker. *)
Definition check_prefix (input_file dictionary : string) : list event :=
  [ ConsolePrint (msg_opening input_file); ConsolePrint "";
    StatusStart "[bold green]Checking file...";
    CallCheckFile input_file dictionary; StatusStop ].

(** The path of the log: the [-o] option, or [error_log.txt] in the
    directory of the input file. *)
Definition log_path (input_file : string) (output_file : option string) : string :=
  match output_file with
  | Some output_file => output_file
  | None => os_path_join (os_path_dirname input_file) "error_log.txt"
  end.

(** The events of the conversion of a [click.File('r')] parameter. *)
Definition open_r_events (value : string) : list event :=
  if String.eqb value "-" then [] else [FileOpen value ModeR].

Definition File_r_of (value : string) : File :=
  {| name := if String.eqb value "-" then "<stdin>" else value |}.

(** A [click.File('r')] parameter that converts: standard input or an
    existing file. *)
Definition readable (fs : gmap string string) (value : string) : Prop :=
  value = "-" \/ is_Some (fs !! value).

End Reports.

(** The input ends in [ext_in] and the output ends in [ext_out]. *)
Definition pairing (input_file output_file ext_in ext_out : string) : bool :=
  Py.endswith input_file ext_in && Py.endswith output_file ext_out.

(** Case analysis on every disjunction and existential among the
    hypotheses. *)
Ltac split_ors :=
  repeat match goal with
         | H : _ ∨ _ |- _ => destruct H as [H|H]
         | H : ∃ _, _ |- _ => destruct H as [? H]
         end.

(** The calls of a run to the checker, its prints to the console, and its
    operations on files. *)
Definition is_check_call (e : event) : bool :=
  match e with
  | CallCheckFile _ _ => true
  | _ => false
  end.

Definition check_calls (t : list event) : list event :=
  List.filter is_check_call t.

Definition is_console_print (e : event) : bool :=
  match e with
  | ConsolePrint _ => true
  | _ => false
  end.

Definition is_file_event (e : event) : bool :=
  match e with
  | FileOpen _ _ | FileWrite _ _ | FileClose _ => true
  | _ => false
  end.

(** The first character of a string, and [n] times the character [c]. *)
Definition first_char (s : string) : option ascii :=
  match s with
  | EmptyString => None
  | String a _ => Some a
  end.

Fixpoint repeat_char (n : nat) (c : ascii) : string :=
  match n with
  | 0 => ""
  | S n' => String c (repeat_char n' c)
  end.

(** ** A run of prints

    What a sequence of [console.print] calls does: the messages are printed
    in order up to the first one the console refuses, which raises. *)

Section ConsoleRuns.

Context {rich : Rich}.

Fixpoint console_run (messages : list string) : outcome unit * list event :=
  match messages with
  | [] => (Returns tt, [])
  | m :: messages' =>
      if markup_error m then (Raises (MarkupError m), [])
      else let (r, evs) := console_run messages' in (r, ConsolePrint m :: evs)
  end.

(** A command that only prints [messages], as far as the console accepts
    them. *)
Definition prints (messages : list string) (m : M unit) : Prop :=
  forall fs, m fs = Run (console_run messages).1 fs (console_run messages).2.

(** The lines [print_to_screen] sends to the console for a report. *)
Definition screen_lines (d : report) : list string :=
  d ≫= fun kv => screen_key kv.1 :: (screen_entry <$> kv.2) ++ [""].

End ConsoleRuns.

(** ** The expected output, written out

    The texts of the source, spelled out independently of the model of
    the commands, for the statements of the properties. *)

Definition opening_line (input_file : string) : string :=
  "[green]Opening file... [bold]" +:+ input_file +:+ "[/bold][/green]".

Definition exporting_line (output_file : string) : string :=
  "[green]Exporting data to... [bold]" +:+ output_file +:+ "[/bold][/green]".

Definition complete_line : string :=
  Py.LF +:+ "[green]File conversion complete! :heavy_check_mark:[/green]" +:+ Py.LF.

Definition count_line (n : nat) : string :=
  Py.LF +:+ "[yellow]File check complete! " +:+ pretty n +:+ " errors found![/yellow]".

Definition too_long_line : string :=
  Py.LF +:+ "[yellow]Error report too long to print to screen.[/yellow]".

Definition no_errors_line : string :=
  Py.LF +:+ "[green]File check complete! No errors found. :heavy_check_mark:[/green]"
  +:+ Py.LF.

(** The report saved with and without the final dot of the source. *)
Definition saved_line (output_file : string) : string :=
  Py.LF +:+ "[yellow]Error report saved in " +:+ output_file +:+ "[/yellow]" +:+ Py.LF.

Definition saved_dot_line (output_file : string) : string :=
  Py.LF +:+ "[yellow]Error report saved in " +:+ output_file +:+ ".[/yellow]" +:+ Py.LF.

(** The events of [check] up to the return of the checker. *)
Definition checker_events (input_file dictionary : string) : list event :=
  [ ConsolePrint (opening_line input_file); ConsolePrint "";
    StatusStart "[bold green]Checking file...";
    CallCheckFile input_file dictionary; StatusStop ].

(** The line of a record as formatted: a number in decimal, a text as it
    is. *)
Definition line_text (l : line_ref) : string :=
  match l with
  | LineNo n => pretty n
  | LineText t => t
  end.

(** [label] is [group] without the double quotes around it. *)
Definition is_label_of (label group : string) : Prop :=
  exists n m : nat,
    group = repeat_char n "034" +:+ label +:+ repeat_char m "034"
    /\ first_char label <> Some "034"%char
    /\ last_char label <> Some "034"%char.

(** A record as shown on the terminal and as written to the log. *)
Definition record_shown (line : string) (e : entry) : Prop :=
  exists label, is_label_of label (entry_group e)
    /\ line = "  Line " +:+ line_text (entry_line e) +:+ Py.TAB +:+ " [bold]"
              +:+ label +:+ "[/bold]" +:+ Py.TAB +:+ " " +:+ entry_desc e.

Definition record_logged (line : string) (e : entry) : Prop :=
  exists label, is_label_of label (entry_group e)
    /\ line = "  Line " +:+ line_text (entry_line e) +:+ Py.TAB +:+ " "
              +:+ label +:+ Py.TAB +:+ " " +:+ entry_desc e +:+ Py.LF.

(** A rule group: its key line, one line per record in the order of the
    sequence, and an empty line. *)
Definition group_shown (lines : list string) (kv : string * list entry) : Prop :=
  exists records,
    lines = ("[underline]" +:+ kv.1 +:+ "[/underline]:") :: records ++ [""]
    /\ Forall2 record_shown records kv.2.

Definition group_logged (chunks : list string) (kv : string * list entry) : Prop :=
  exists records,
    chunks = (kv.1 +:+ ":" +:+ Py.LF) :: records ++ [Py.LF]
    /\ Forall2 record_logged records kv.2.

(** A report: its groups, in the order of the dict. *)
Definition report_shown (lines : list string) (d : report) : Prop :=
  exists groups, lines = concat groups /\ Forall2 group_shown groups d.

Definition report_logged (chunks : list string) (d : report) : Prop :=
  exists groups, chunks = concat groups /\ Forall2 group_logged groups d.

(** The text of a log: the input file, the count, an empty line, and the
    report. *)
Definition log_holds (text input_file : string) (n : nat) (d : report) : Prop :=
  exists chunks,
    report_logged chunks d
    /\ text = "Input file: " +:+ input_file +:+ Py.LF
              +:+ pretty n +:+ " errors found!" +:+ Py.LF
              +:+ Py.LF +:+ str_concat chunks.

(** The spellings of [true] and [yes] in any mix of cases. *)
Definition true_spellings : list string :=
  [ "true"; "truE"; "trUe"; "trUE"; "tRue"; "tRuE"; "tRUe"; "tRUE";
    "True"; "TruE"; "TrUe"; "TrUE"; "TRue"; "TRuE"; "TRUe"; "TRUE" ].

Definition yes_spellings : list string :=
  [ "yes"; "yeS"; "yEs"; "yES"; "Yes"; "YeS"; "YEs"; "YES" ].

(** A character that is neither an opening bracket nor a backslash, and a
    string of such characters. *)
Definition plain_char (c : ascii) : bool :=
  negb (Ascii.eqb c "[") && negb (Ascii.eqb c "092").

Fixpoint all_chars (p : ascii -> bool) (s : string) : bool :=
  match s with
  | EmptyString => true
  | String c s' => p c && all_chars p s'
  end.

Definition starts_with_slash (s : string) : bool :=
  match s with
  | String c _ => Ascii.eqb c "/"
  | EmptyString => false
  end.

Section SavedRuns.

Context {ags4 : AGS4_library} {platform : Platform} {rich : Rich}.

(** The run that follows the events [evs] by saving the log in [path] and
    printing [message]. *)
Definition saved_run (path input_file : string) (n : nat) (d : report)
    (message : string) (fs : gmap string string) (evs : list event) : run unit :=
  if can_write path then
    if markup_error message then
      Run (Raises (MarkupError message)) (<[path := log_text input_file n d]> fs)
        (evs ++ save_events path input_file n d)
    else
      Run (Returns tt) (<[path := log_text input_file n d]> fs)
        (evs ++ save_events path input_file n d ++ [ConsolePrint message])
  else Run (Raises (OSError path)) fs evs.

End SavedRuns.

(** The chunks written to a log: the input file, the count, an empty
    line, and the report. *)
Definition log_written (chunks : list string) (input_file : string) (n : nat)
    (d : report) : Prop :=
  exists report_chunks,
    report_logged report_chunks d
    /\ chunks = [ "Input file: " +:+ input_file +:+ Py.LF;
                  pretty n +:+ " errors found!" +:+ Py.LF;
                  Py.LF ] ++ report_chunks.

(** ** The model on concrete inputs *)

Example endswith_ex1 : Py.endswith "data/a.ags" ".ags" = true.
Proof. reflexivity. Qed.
Example endswith_ex2 : Py.endswith "ags" ".ags" = false.
Proof. reflexivity. Qed.
Example split_ex1 : Py.split "." "a.b..c" = ["a"; "b"; ""; "c"].
Proof. reflexivity. Qed.
Example split_ex2 : Py.split "." "" = [""].
Proof. reflexivity. Qed.
Example strip_ex1 :
  Py.strip Py.DQUOTE (String Py.DQUOTE ("PROJ" +:+ String Py.DQUOTE "")) = "PROJ".
Proof. reflexivity. Qed.
Example lower_ex1 : Py.lower "TrUe-9" = "true-9".
Proof. reflexivity. Qed.
Example str_of_nat_ex : Py.str_of_nat 0 = "0" /\ Py.str_of_nat 120 = "120".
Proof. split; vm_compute; reflexivity. Qed.
Example str_of_Z_ex : Py.str_of_Z (-7) = "-7".
Proof. vm_compute; reflexivity. Qed.

Example dirname_ex :
  posixpath.dirname "data/x.ags" = "data" /\ posixpath.dirname "x.ags" = ""
  /\ posixpath.dirname "/x.ags" = "/".
Proof. repeat split. Qed.

Example join_ex :
  posixpath.join "data" "error_log.txt" = "data/error_log.txt"
  /\ posixpath.join "" "error_log.txt" = "error_log.txt"
  /\ posixpath.join "/" "error_log.txt" = "/error_log.txt".
Proof. repeat split. Qed.

Example format_columns_ex :
  map (fun v => Py.str_in (Py.lower v) ["true"; "yes"])
      ["true"; "TRUE"; "Yes"; "false"; "ture"; "y"; "1"; ""]
  = [true; true; true; false; false; false; false; false].
Proof. reflexivity. Qed.

(** A short report goes to the terminal and, with [-o], to the log. *)
Example check_short_ex :
  let r := check (ags4 := library_double (Returns sample_report))
             (platform := posix_platform) (rich := rich_console) "d/a.ags" "dict.ags" (Some "log.txt") ∅ in
  result r = Returns tt
  /\ length (events r) = 30
  /\ files_after r !! "log.txt"
     = Some ("Input file: d/a.ags" +:+ Py.LF +:+ "3 errors found!" +:+ Py.LF +:+ Py.LF
             +:+ "Rule 1:" +:+ Py.LF
             +:+ "  Line 3" +:+ Py.TAB +:+ " PROJ" +:+ Py.TAB +:+ " Description" +:+ Py.LF
             +:+ "  Line 1" +:+ Py.TAB +:+ " PROJ" +:+ Py.TAB +:+ " Description" +:+ Py.LF
             +:+ Py.LF
             +:+ "Rule 2:" +:+ Py.LF +:+ Py.LF
             +:+ "Rule 3:" +:+ Py.LF
             +:+ "  Line -" +:+ Py.TAB +:+ " " +:+ Py.TAB +:+ " UNIT group missing" +:+ Py.LF
             +:+ Py.LF).
Proof. vm_compute. repeat split. Qed.

(** A library call that raises ends [convert] after the call. *)
Example convert_raises_ex :
  let r := convert (ags4 := library_failing) (rich := rich_console)
             {| name := "a.ags" |} {| name := "a.xlsx" |} "true" None ∅ in
  result r = Raises (LibraryError "AGS4_to_excel")
  /\ events r
     = [ ConsolePrint "[green]Opening file... [bold]a.ags[/bold][/green]";
         ConsolePrint "[green]Exporting data to... [bold]a.xlsx[/bold][/green]";
         BuiltinPrint "";
         CallAGS4ToExcel "a.ags" "a.xlsx" ].
Proof. vm_compute. repeat split. Qed.

(** A long report whose default log cannot be opened: the error names the
    path beside the input file. *)
Example check_unwritable_ex :
  let r := check (ags4 := library_double (Returns long_report))
             (platform := posix_platform) (rich := rich_console) "/proc/1/a.ags" "dict.ags" None ∅ in
  result r = Raises (OSError "/proc/1/error_log.txt")
  /\ files_after r = ∅.
Proof. vm_compute. repeat split. Qed.

Example strip_ws_ex :
  Py.strip_ws (" " +:+ Py.TAB +:+ "bold  green " +:+ Py.LF) = "bold  green"
  /\ Py.strip_ws (String "194" (String "160" "b")) = "b"
  /\ Py.strip_ws ("b" +:+ String "226" (String "128" (String "175" ""))) = "b"
  /\ Py.strip_ws (String "195" (String "160" "")) = String "195" (String "160" "")
  /\ Py.strip_ws "  " = "".
Proof. vm_compute. repeat split. Qed.

(** The console on markup: a closing tag that closes nothing is an error,
    an escaped one is text. *)
Example markup_error_ex :
  markup_error (rich := rich_console) "[bold]a[/bold] [i]b[/]" = false
  /\ markup_error (rich := rich_console) "a[/y]b" = true
  /\ markup_error (rich := rich_console) "[/]" = true
  /\ markup_error (rich := rich_console) "[b][i]x[/b][/i]" = false
  /\ markup_error (rich := rich_console) ("a" +:+ String "092" "[/y]b") = false
  /\ markup_error (rich := rich_console) "a[1]b [ x] [Bold]c" = false.
Proof. vm_compute. repeat split. Qed.

(** A path with a closing tag ends [check] before the checker is called. *)
Example refused_path_run_ex :
  let r := check (ags4 := library_double (Returns sample_report))
             (platform := posix_platform) (rich := rich_console)
             "d[/x]/a.ags" "dict.ags" None ∅ in
  r = Run (Raises (MarkupError
             "[green]Opening file... [bold]d[/x]/a.ags[/bold][/green]")) ∅ [].
Proof. vm_compute. reflexivity. Qed.

(** ** Facts about the string methods *)

Section StringFacts.

Implicit Types s p suffix : string.

Lemma app_cons (a : ascii) s1 s2 : String a s1 +:+ s2 = String a (s1 +:+ s2).
Proof. reflexivity. Qed.

Lemma app_empty_l s : "" +:+ s = s.
Proof. reflexivity. Qed.

Lemma app_empty_r s : s +:+ "" = s.
Proof. induction s as [|a s IH]; [done|]. by rewrite app_cons, IH. Qed.

Lemma app_assoc_str s1 s2 s3 : (s1 +:+ s2) +:+ s3 = s1 +:+ (s2 +:+ s3).
Proof. induction s1 as [|a s1 IH]; [done|]. by rewrite !app_cons, IH. Qed.

Lemma length_app_str s1 s2 :
  String.length (s1 +:+ s2) = String.length s1 + String.length s2.
Proof. induction s1 as [|a s1 IH]; [done|]. rewrite app_cons. simpl. by rewrite IH. Qed.

Lemma substring_all s : String.substring 0 (String.length s) s = s.
Proof. induction s as [|a s IH]; [done|]. simpl. by rewrite IH. Qed.

Lemma substring_skip p s :
  String.substring (String.length p) (String.length s) (p +:+ s) = s.
Proof.
  induction p as [|a p IH]; [apply substring_all|].
  rewrite app_cons. simpl. exact IH.
Qed.

Lemma substring_split k s :
  k ≤ String.length s →
  s = String.substring 0 k s +:+ String.substring k (String.length s - k) s.
Proof.
  revert k. induction s as [|a s IH]; intros [|k] Hk; simpl in *; try lia.
  - done.
  - rewrite app_empty_l. by rewrite substring_all.
  - rewrite app_cons. f_equal. apply IH. lia.
Qed.

(** [endswith] holds exactly of the strings that are some prefix followed
    by the suffix. *)
Lemma endswith_app p suffix : Py.endswith (p +:+ suffix) suffix = true.
Proof.
  unfold Py.endswith. rewrite length_app_str.
  replace (String.length p + String.length suffix - String.length suffix)
    with (String.length p) by lia.
  rewrite substring_skip, String.eqb_refl, andb_true_r.
  apply Nat.leb_le. lia.
Qed.

Lemma endswith_inv s suffix :
  Py.endswith s suffix = true → ∃ p, s = p +:+ suffix.
Proof.
  unfold Py.endswith. intros [Hle Heq]%andb_true_iff.
  apply Nat.leb_le in Hle. apply String.eqb_eq in Heq.
  exists (String.substring 0 (String.length s - String.length suffix) s).
  pose proof (substring_split (String.length s - String.length suffix) s) as Hs.
  replace (String.length s - (String.length s - String.length suffix))
    with (String.length suffix) in Hs by lia.
  rewrite Heq in Hs. apply Hs. lia.
Qed.

Lemma endswith_iff s suffix :
  Py.endswith s suffix = true ↔ ∃ p, s = p +:+ suffix.
Proof.
  split; [apply endswith_inv|]. intros [p ->]. apply endswith_app.
Qed.

(** The last character decides between the two extensions. *)
Lemma last_char_app p s : s ≠ "" → last_char (p +:+ s) = last_char s.
Proof.
  intros Hs. induction p as [|a p IH]; [done|].
  rewrite app_cons. simpl. rewrite IH.
  destruct s as [|b s]; [done|]. simpl. by destruct (last_char s).
Qed.

Lemma endswith_last_char s suffix :
  suffix ≠ "" → Py.endswith s suffix = true → last_char s = last_char suffix.
Proof. intros Hne [p ->]%endswith_inv. by apply last_char_app. Qed.

Lemma endswith_ags_not_xlsx s :
  Py.endswith s ".ags" = true → Py.endswith s ".xlsx" = false.
Proof.
  intros Hags. destruct (Py.endswith s ".xlsx") eqn:Hxlsx; [|done].
  apply endswith_last_char in Hags; [|done].
  apply endswith_last_char in Hxlsx; [|done].
  rewrite Hags in Hxlsx. discriminate.
Qed.

Lemma endswith_xlsx_not_ags s :
  Py.endswith s ".xlsx" = true → Py.endswith s ".ags" = false.
Proof.
  intros Hxlsx. destruct (Py.endswith s ".ags") eqn:Hags; [|done].
  by rewrite (endswith_ags_not_xlsx s Hags) in Hxlsx.
Qed.

(** [split] never returns the empty list, and splits at a separator. *)
Lemma split_nonempty sep s : Py.split sep s ≠ [].
Proof.
  destruct s as [|c s]; simpl; [done|].
  destruct (Ascii.eqb c sep); [done|]. by destruct (Py.split sep s).
Qed.

Lemma split_app_sep sep p s :
  Py.split sep (p +:+ String sep s) = Py.split sep p ++ Py.split sep s.
Proof.
  induction p as [|c p IH].
  - rewrite app_empty_l. simpl. by rewrite Ascii.eqb_refl.
  - rewrite app_cons. simpl. rewrite IH.
    destruct (Ascii.eqb c sep); [done|].
    pose proof (split_nonempty sep p). by destruct (Py.split sep p).
Qed.

Lemma last_split_ext sep p ext :
  Py.split sep ext = [ext] →
  last (Py.split sep (p +:+ String sep ext)) = Some ext.
Proof. intros Hext. by rewrite split_app_sep, Hext, last_snoc. Qed.

Lemma file_type_ags s :
  Py.endswith s ".ags" = true → last (Py.split "." s) = Some "ags".
Proof. intros [p ->]%endswith_inv. by apply (last_split_ext "." p "ags"). Qed.

Lemma file_type_xlsx s :
  Py.endswith s ".xlsx" = true → last (Py.split "." s) = Some "xlsx".
Proof. intros [p ->]%endswith_inv. by apply (last_split_ext "." p "xlsx"). Qed.

End StringFacts.

(** ** Facts about the console *)

Section MarkupFacts.

Context {rich : Rich}.

(** Plain text holds no tag. *)
Lemma tags_from_plain s1 s2 :
  all_chars plain_char s1 = true →
  tags_from 0 0 (s1 +:+ s2) = tags_from 0 0 s2.
Proof.
  induction s1 as [|c s1 IH]; [done|].
  cbn [all_chars]. intros [Hc Hs1]%andb_true_iff.
  apply andb_true_iff in Hc as [Hb He].
  rewrite app_cons. cbn [tags_from].
  apply negb_true_iff in Hb, He. rewrite Hb, He. by apply IH.
Qed.

Lemma tags_from_plain_only s :
  all_chars plain_char s = true → tags_from 0 0 s = [].
Proof.
  intros Hs. rewrite <- (app_empty_r s). by rewrite tags_from_plain.
Qed.

(** A decimal number is plain text. *)
Lemma pretty_N_go_plain x s :
  all_chars plain_char s = true → all_chars plain_char (pretty_N_go x s) = true.
Proof.
  revert s. induction (N.lt_wf_0 x) as [x _ IH]; intros s Hs.
  assert (x = 0 ∨ 0 < x)%N as [->|Hx] by lia; [by rewrite pretty_N_go_0|].
  rewrite pretty_N_go_step by done. apply IH; [by apply N.div_lt|].
  cbn [all_chars]. rewrite Hs, andb_true_r.
  unfold pretty_N_char. by repeat case_match.
Qed.

Lemma pretty_nat_plain (n : nat) : all_chars plain_char (pretty n) = true.
Proof.
  unfold pretty, pretty_nat, pretty, pretty_N.
  case_decide; [done|]. by apply pretty_N_go_plain.
Qed.

(** Opening a tag without parameters, and closing the tag on top of the
    stack by its name. *)
Lemma stack_error_open name tags stack :
  Py.partition_eq name = (name, None) →
  starts_with_slash name = false →
  stack_error (name :: tags) stack
  = stack_error tags
      ({| open_name := style_normalize name; open_parameters := None |} :: stack).
Proof.
  intros Hpart Hslash. cbn [stack_error]. rewrite Hpart.
  destruct name as [|c name]; [done|]. cbn [starts_with_slash] in Hslash.
  destruct (Ascii.eqb_spec c "/") as [->|Hne]; [done|].
  by destruct c as [[] [] [] [] [] [] [] []].
Qed.

Lemma stack_error_close name tags stack :
  Py.partition_eq name = (name, None) →
  Py.strip_ws name = name →
  String.eqb name "" = false →
  stack_error (String "/" name :: tags)
    ({| open_name := style_normalize name; open_parameters := None |} :: stack)
  = stack_error tags stack.
Proof.
  intros Hpart Hstrip Hne. cbn [stack_error Py.partition_eq].
  change (Ascii.eqb "/" "=") with false. cbv iota. rewrite Hpart.
  cbv zeta. rewrite Hstrip, Hne. cbn [pop_style open_name].
  by rewrite String.eqb_refl.
Qed.

End MarkupFacts.

(** Decides that a fixed message is accepted by every console: its tags
    are computed, then opened and closed one by one. *)
Ltac accept_markup tags :=
  unfold markup_error;
  match goal with
  | |- stack_error (tags_from 0 0 ?m) [] = false =>
      replace (tags_from 0 0 m) with tags by (vm_compute; reflexivity)
  end;
  repeat first
    [ rewrite stack_error_close by (vm_compute; reflexivity)
    | rewrite stack_error_open by (vm_compute; reflexivity) ];
  reflexivity.

Section FixedMessages.

Context {rich : Rich}.

Lemma accepts_empty : markup_error "" = false.
Proof. reflexivity. Qed.

Lemma accepts_status : markup_error "[bold green]Checking file..." = false.
Proof. accept_markup ["bold green"]. Qed.

Lemma accepts_conversion_complete : markup_error msg_conversion_complete = false.
Proof. accept_markup ["green"; "/green"]. Qed.

Lemma accepts_same_type_ags : markup_error (msg_same_type "ags") = false.
Proof. accept_markup ["yellow"; "bold"; "/bold"; "/yellow"]. Qed.

Lemma accepts_same_type_xlsx : markup_error (msg_same_type "xlsx") = false.
Proof. accept_markup ["yellow"; "bold"; "/bold"; "/yellow"]. Qed.

Lemma accepts_invalid_filenames : markup_error msg_invalid_filenames = false.
Proof. accept_markup ["red"; "/red"]. Qed.

Lemma accepts_try_help : markup_error msg_try_help = false.
Proof. accept_markup ["red"; "/red"]. Qed.

Lemma accepts_no_errors : markup_error msg_no_errors = false.
Proof. accept_markup ["green"; "/green"]. Qed.

Lemma accepts_too_long : markup_error msg_too_long = false.
Proof. accept_markup ["yellow"; "/yellow"]. Qed.

Lemma accepts_only_ags : markup_error msg_only_ags = false.
Proof. accept_markup ["red"; "/red"]. Qed.

(** The count line is accepted whatever the count. *)
Lemma accepts_errors_found (n : nat) : markup_error (msg_errors_found n) = false.
Proof.
  unfold markup_error.
  assert (tags_from 0 0 (msg_errors_found n) = ["yellow"; "/yellow"]) as ->.
  { unfold msg_errors_found, Py.str_of_nat.
    transitivity ("yellow" :: tags_from 0 0 (pretty n +:+ " errors found![/yellow]"));
      [reflexivity|].
    rewrite tags_from_plain by apply pretty_nat_plain. reflexivity. }
  rewrite stack_error_open by (vm_compute; reflexivity).
  rewrite stack_error_close by (vm_compute; reflexivity).
  reflexivity.
Qed.

End FixedMessages.

(** ** Facts about the command monad and the loops *)

Section MonadFacts.

Lemma run_eta {A} (r : run A) : Run (result r) (files_after r) (events r) = r.
Proof. by destruct r. Qed.

Lemma bind_ret_l {A B} (a : A) (k : A -> M B) fs : (x <- ret a ;; k x) fs = k a fs.
Proof. unfold bind, ret. simpl. apply run_eta. Qed.

Lemma bind_returns {A B} (m : M A) (k : A -> M B) fs a fs' evs :
  m fs = Run (Returns a) fs' evs →
  (x <- m ;; k x) fs
  = Run (result (k a fs')) (files_after (k a fs')) (evs ++ events (k a fs')).
Proof. intros Hm. unfold bind. by rewrite Hm. Qed.

Lemma bind_raises {A B} (m : M A) (k : A -> M B) fs e fs' evs :
  m fs = Run (Raises e) fs' evs → (x <- m ;; k x) fs = Run (Raises e) fs' evs.
Proof. intros Hm. unfold bind. by rewrite Hm. Qed.

Lemma bind_unfold {A B} (m : M A) (k : A -> M B) fs :
  (x <- m ;; k x) fs
  = match result (m fs) with
    | Returns a =>
        Run (result (k a (files_after (m fs)))) (files_after (k a (files_after (m fs))))
          (events (m fs) ++ events (k a (files_after (m fs))))
    | Raises e => Run (Raises e) (files_after (m fs)) (events (m fs))
    end.
Proof. reflexivity. Qed.

Lemma bind_emit {B} (e : event) (k : M B) fs :
  (emit e ;; k) fs = Run (result (k fs)) (files_after (k fs)) (e :: events (k fs)).
Proof. reflexivity. Qed.

Lemma str_concat_app l1 l2 : str_concat (l1 ++ l2) = str_concat l1 +:+ str_concat l2.
Proof.
  induction l1 as [|x l1 IH]; [done|].
  simpl. by rewrite IH, app_assoc_str.
Qed.

Lemma bind_unit_fmap {A B} (f : A -> B) (l : list A) :
  l ≫= (λ x, [f x]) = f <$> l.
Proof. induction l as [|x l IH]; [done|]. by rewrite bind_cons, fmap_cons, IH. Qed.

(** *** Commands that only print *)

Lemma emits_ret : emits [] (ret tt).
Proof. done. Qed.

Lemma emits_emit e : emits [e] (emit e).
Proof. done. Qed.

Lemma emits_bind evs1 evs2 (m1 m2 : M unit) :
  emits evs1 m1 → emits evs2 m2 → emits (evs1 ++ evs2) (m1 ;; m2).
Proof.
  intros H1 H2 fs. erewrite bind_returns by apply H1. by rewrite H2.
Qed.

Lemma emits_for_each {A} (f : A -> list event) (body : A -> M unit) l :
  (∀ x, x ∈ l → emits (f x) (body x)) → emits (l ≫= f) (for_each l body).
Proof.
  induction l as [|x l IH]; intros Hbody; [apply emits_ret|].
  simpl. apply emits_bind.
  - apply Hbody. by left.
  - apply IH. intros y Hy. apply Hbody. by right.
Qed.

(** *** Commands that only write to one open file *)

Lemma writes_ret path : writes path [] (ret tt).
Proof.
  intros fs c Hc. unfold ret. f_equal. simpl.
  by rewrite app_empty_r, insert_id.
Qed.

Lemma writes_file_write path data : writes path [data] (file_write path data).
Proof.
  intros fs c Hc. unfold file_write. rewrite Hc. simpl.
  by rewrite app_empty_r.
Qed.

Lemma writes_bind path chunks1 chunks2 (m1 m2 : M unit) :
  writes path chunks1 m1 → writes path chunks2 m2 →
  writes path (chunks1 ++ chunks2) (m1 ;; m2).
Proof.
  intros H1 H2 fs c Hc. erewrite bind_returns by (by apply H1).
  rewrite (H2 _ (c +:+ str_concat chunks1)) by apply lookup_insert_eq.
  simpl. by rewrite insert_insert_eq, str_concat_app, app_assoc_str, fmap_app.
Qed.

Lemma writes_for_each {A} path (f : A -> list string) (body : A -> M unit) l :
  (∀ x, x ∈ l → writes path (f x) (body x)) →
  writes path (l ≫= f) (for_each l body).
Proof.
  induction l as [|x l IH]; intros Hbody; [apply writes_ret|].
  simpl. apply writes_bind.
  - apply Hbody. by left.
  - apply IH. intros y Hy. apply Hbody. by right.
Qed.

(** *** Dict lookup *)

Lemma dict_get_wf (d : report) key val :
  dict_wf d → (key, val) ∈ d → dict_get d key = Some val.
Proof.
  unfold dict_wf. induction d as [|[k v] d IH]; intros Hwf Hin.
  - by apply elem_of_nil in Hin.
  - rewrite fmap_cons in Hwf. apply NoDup_cons in Hwf as [Hk Hwf]. simpl in *.
    apply elem_of_cons in Hin as [Heq|Hin].
    + injection Heq as -> ->. by rewrite String.eqb_refl.
    + destruct (String.eqb_spec k key) as [->|Hne]; [|by apply IH].
      exfalso. apply Hk. apply (list_elem_of_fmap_2 fst) in Hin. exact Hin.
  Qed.

Lemma dict_getitem_bind {B} (d : report) key val (k : list entry -> M B) fs :
  dict_get d key = Some val → (v <- dict_getitem d key ;; k v) fs = k val fs.
Proof. intros Hget. unfold dict_getitem. rewrite Hget. apply bind_ret_l. Qed.

Lemma count_errors_total (d : report) : count_errors d = report_total d.
Proof.
  unfold count_errors, report_total.
  assert (∀ n, fold_left (λ error_count kv, error_count + length kv.2) d n
               = n + sum_list_with (λ kv, length kv.2) d) as Hgen.
  { induction d as [|kv d IH]; intros n; simpl; [lia|]. rewrite IH. lia. }
  apply Hgen.
Qed.

End MonadFacts.

(** ** Facts about runs of prints *)

Section ConsoleFacts.

Context {rich : Rich}.

Lemma bind_print {B} (markup : string) (k : M B) fs :
  (console_print markup ;; k) fs
  = if markup_error markup then Run (Raises (MarkupError markup)) fs []
    else Run (result (k fs)) (files_after (k fs))
           (ConsolePrint markup :: events (k fs)).
Proof. unfold bind, console_print. by destruct (markup_error markup). Qed.

Lemma console_print_accepted markup fs :
  markup_error markup = false →
  console_print markup fs = Run (Returns tt) fs [ConsolePrint markup].
Proof. intros H. unfold console_print. by rewrite H. Qed.

Lemma console_print_refused markup fs :
  markup_error markup = true →
  console_print markup fs = Run (Raises (MarkupError markup)) fs [].
Proof. intros H. unfold console_print. by rewrite H. Qed.

Lemma console_run_app ms1 ms2 :
  console_run (ms1 ++ ms2)
  = match (console_run ms1).1 with
    | Returns _ =>
        ((console_run ms2).1, (console_run ms1).2 ++ (console_run ms2).2)
    | Raises e => (Raises e, (console_run ms1).2)
    end.
Proof.
  induction ms1 as [|m ms1 IH].
  { cbn [app console_run fst snd]. by destruct (console_run ms2). }
  cbn [app console_run]. destruct (markup_error m); [done|].
  rewrite IH. destruct (console_run ms1) as [[[]|e] evs1]; cbn [fst snd]; [|done].
  by destruct (console_run ms2).
Qed.

Lemma console_run_accepted ms :
  Forall (λ m, markup_error m = false) ms →
  console_run ms = (Returns tt, ConsolePrint <$> ms).
Proof.
  induction 1 as [|m ms Hm _ IH]; [done|].
  cbn [console_run]. by rewrite Hm, IH.
Qed.

Lemma console_run_returns ms :
  (console_run ms).1 = Returns tt →
  Forall (λ m, markup_error m = false) ms.
Proof.
  induction ms as [|m ms IH]; [done|]. cbn [console_run].
  destruct (markup_error m) eqn:Hm; [done|].
  destruct (console_run ms) as [r evs]. cbn [fst] in *. intros ->.
  constructor; [done|]. by apply IH.
Qed.

Lemma console_run_raises ms e :
  (console_run ms).1 = Raises e →
  ∃ m, e = MarkupError m ∧ m ∈ ms ∧ markup_error m = true.
Proof.
  induction ms as [|m ms IH]; [done|]. cbn [console_run].
  destruct (markup_error m) eqn:Hm.
  - intros [= <-]. exists m. split; [done|]. split; [by left|done].
  - destruct (console_run ms) as [r evs]. cbn [fst] in *. intros ->.
    destruct IH as (m' & -> & Hin & Hm'); [done|].
    exists m'. split; [done|]. split; [by right|done].
Qed.

(** The events of a run of prints are prints of its messages, in order,
    from the first one on. *)
Lemma console_run_events ms :
  ∃ k, (console_run ms).2 = ConsolePrint <$> take k ms.
Proof.
  induction ms as [|m ms [k IH]]; [by exists 0|]. cbn [console_run].
  destruct (markup_error m); [by exists 0|].
  destruct (console_run ms) as [r evs]. cbn [snd] in *. exists (S k).
  by rewrite IH.
Qed.

Lemma console_run_events_prints ms e :
  e ∈ (console_run ms).2 → ∃ m, e = ConsolePrint m ∧ m ∈ ms.
Proof.
  destruct (console_run_events ms) as [k ->].
  intros (m & -> & Hm)%list_elem_of_fmap. exists m. split; [done|].
  by apply (subseteq_take k ms).
Qed.

Lemma prints_ret : prints [] (ret tt).
Proof. done. Qed.

Lemma prints_console_print m : prints [m] (console_print m).
Proof.
  intros fs. unfold console_print. cbn [console_run].
  by destruct (markup_error m).
Qed.

Lemma prints_bind ms1 ms2 (m1 m2 : M unit) :
  prints ms1 m1 → prints ms2 m2 → prints (ms1 ++ ms2) (m1 ;; m2).
Proof.
  intros H1 H2 fs. unfold bind. cbv zeta. rewrite !(H1 fs), console_run_app.
  destruct (console_run ms1) as [[[]|e] evs1];
    cbn [fst snd result files_after events]; [|done].
  by rewrite (H2 fs).
Qed.

Lemma prints_for_each {A} (f : A -> list string) (body : A -> M unit) l :
  (∀ x, x ∈ l → prints (f x) (body x)) → prints (l ≫= f) (for_each l body).
Proof.
  induction l as [|x l IH]; intros Hbody; [apply prints_ret|].
  simpl. apply prints_bind.
  - apply Hbody. by left.
  - apply IH. intros y Hy. apply Hbody. by right.
Qed.

Lemma with_console_status_run {A} (body : M A) fs :
  with_console_status "[bold green]Checking file..." body fs
  = Run (result (body fs)) (files_after (body fs))
      (StatusStart "[bold green]Checking file..." :: events (body fs) ++ [StatusStop]).
Proof.
  unfold with_console_status. rewrite accepts_status.
  rewrite bind_emit. unfold with_exit, emit. cbn [result files_after events].
  by destruct (result (body fs)).
Qed.


End ConsoleFacts.

(** ** The runs of [print_to_screen], [save_to_file] and [check] *)

Section CheckFacts.

Context {ags4 : AGS4_library} {platform : Platform} {rich : Rich}.

Lemma print_to_screen_prints (d : report) :
  dict_wf d → prints (screen_lines d) (print_to_screen d).
Proof.
  intros Hwf. unfold print_to_screen, screen_lines.
  assert (∀ l : report, (∀ kv, kv ∈ l → kv ∈ d) →
    prints (l ≫= λ kv, screen_key kv.1 :: (screen_entry <$> kv.2) ++ [""])
      (for_each (l.*1) (λ key,
         console_print (screen_key key) ;;
         val <- dict_getitem d key ;;
         for_each val (λ entry, console_print (screen_entry entry)) ;;
         console_print ""))) as Hgen.
  { induction l as [|[key val] l IH]; intros Hl; [apply prints_ret|].
    simpl. apply (prints_bind (screen_key key :: (screen_entry <$> val) ++ [""])).
    - apply (prints_bind [_] (_ ++ [_])); [apply prints_console_print|].
      intros fs. rewrite (dict_getitem_bind d key val).
      + revert fs. apply prints_bind; [|apply prints_console_print].
        rewrite <- (bind_unit_fmap screen_entry).
        apply prints_for_each. intros e _. apply prints_console_print.
      + apply dict_get_wf; [done|]. apply Hl. by left.
    - apply IH. intros kv Hkv. apply Hl. by right. }
  by apply Hgen.
Qed.

Lemma print_to_screen_run (d : report) fs :
  dict_wf d →
  print_to_screen d fs
  = Run (console_run (screen_lines d)).1 fs (console_run (screen_lines d)).2.
Proof. intros Hwf. by apply print_to_screen_prints. Qed.

Lemma save_body_writes path (d : report) input_file error_count :
  dict_wf d →
  writes path (log_chunks input_file error_count d)
    (file_write path ("Input file: " +:+ input_file +:+ Py.LF) ;;
     file_write path (Py.str_of_nat error_count +:+ " errors found!" +:+ Py.LF) ;;
     file_write path Py.LF ;;
     for_each (d.*1) (λ key,
       file_write path (log_key key) ;;
       val <- dict_getitem d key ;;
       for_each val (λ entry, file_write path (log_entry entry)) ;;
       file_write path Py.LF)).
Proof.
  intros Hwf. unfold log_chunks.
  apply (writes_bind path [_] (_ :: _ :: _)); [apply writes_file_write|].
  apply (writes_bind path [_] (_ :: _)); [apply writes_file_write|].
  apply (writes_bind path [_]); [apply writes_file_write|].
  assert (∀ l : report, (∀ kv, kv ∈ l → kv ∈ d) →
    writes path (l ≫= log_group)
      (for_each (l.*1) (λ key,
         file_write path (log_key key) ;;
         val <- dict_getitem d key ;;
         for_each val (λ entry, file_write path (log_entry entry)) ;;
         file_write path Py.LF))) as Hgen.
  { induction l as [|[key val] l IH]; intros Hl; [apply writes_ret|].
    simpl. apply (writes_bind path (log_group (key, val))).
    - apply (writes_bind path [_] (_ ++ [_])); [apply writes_file_write|].
      intros fs c Hc. rewrite (dict_getitem_bind d key val).
      + revert fs c Hc. apply writes_bind; [|apply writes_file_write].
        rewrite <- (bind_unit_fmap log_entry).
        apply writes_for_each. intros e _. apply writes_file_write.
      + apply dict_get_wf; [done|]. apply Hl. by left.
    - apply IH. intros kv Hkv. apply Hl. by right. }
  by apply Hgen.
Qed.

Lemma save_to_file_run path (d : report) input_file error_count fs :
  dict_wf d →
  save_to_file path d input_file error_count fs
  = if can_write path
    then Run (Returns tt) (<[path := log_text input_file error_count d]> fs)
             (save_events path input_file error_count d)
    else Run (Raises (OSError path)) fs [].
Proof.
  intros Hwf. unfold save_to_file, with_open_w. unfold bind at 1. unfold open_w.
  destruct (can_write path); [|done].
  cbn [result files_after events]. unfold with_exit.
  rewrite (save_body_writes path d input_file error_count Hwf _ "")
    by apply lookup_insert_eq.
  simpl. by rewrite insert_insert_eq.
Qed.

Lemma save_then_print path (d : report) input_file error_count markup fs :
  dict_wf d →
  (save_to_file path d input_file error_count ;; console_print markup) fs
  = saved_run path input_file error_count d markup fs [].
Proof.
  intros Hwf. unfold bind, saved_run. rewrite save_to_file_run by done.
  destruct (can_write path); [|done]. cbn [result files_after events].
  unfold console_print. destruct (markup_error markup); [|done].
  cbn [result files_after events app]. by rewrite app_nil_r.
Qed.

Lemma saved_run_events path input_file n (d : report) markup fs evs :
  saved_run path input_file n d markup fs evs
  = Run (result (saved_run path input_file n d markup fs []))
        (files_after (saved_run path input_file n d markup fs []))
        (evs ++ events (saved_run path input_file n d markup fs [])).
Proof.
  unfold saved_run. destruct (can_write path); [|by rewrite app_nil_r].
  by destruct (markup_error markup).
Qed.

Lemma check_file_run input_file dictionary fs :
  with_console_status "[bold green]Checking file..."
    (check_file input_file dictionary) fs
  = Run (lib_check_file input_file dictionary fs).1
        (lib_check_file input_file dictionary fs).2
        [StatusStart "[bold green]Checking file...";
         CallCheckFile input_file dictionary; StatusStop].
Proof.
  rewrite with_console_status_run. unfold check_file.
  by destruct (lib_check_file input_file dictionary fs).
Qed.

(** [check] stops on an input path the console refuses, before the checker
    is called. *)
Lemma check_opening_refused_run input_file dictionary output_file fs :
  Py.endswith input_file ".ags" = true →
  markup_error (msg_opening input_file) = true →
  check input_file dictionary output_file fs
  = Run (Raises (MarkupError (msg_opening input_file))) fs [].
Proof.
  intros Hags Hopen. unfold check. rewrite Hags. by rewrite bind_print, Hopen.
Qed.

(** The run of [check] up to the answer of the checker. *)
Lemma check_checker_run input_file dictionary output_file fs :
  Py.endswith input_file ".ags" = true →
  markup_error (msg_opening input_file) = false →
  check input_file dictionary output_file fs
  = let lr := lib_check_file input_file dictionary fs in
    match lr.1 with
    | Raises e => Run (Raises e) lr.2 (check_prefix input_file dictionary)
    | Returns ags_errors =>
        let rest :=
          match ags_errors with
          | [] => console_print msg_no_errors
          | _ :: _ =>
              let error_count := count_errors ags_errors in
              if error_count <? 100 then
                print_to_screen ags_errors ;;
                console_print (msg_errors_found error_count) ;;
                match output_file with
                | Some output_file =>
                    save_to_file output_file ags_errors input_file error_count ;;
                    console_print (msg_saved_dot output_file)
                | None => ret tt
                end
              else
                console_print (msg_errors_found error_count) ;;
                console_print msg_too_long ;;
                save_to_file (log_path input_file output_file) ags_errors
                  input_file error_count ;;
                console_print (msg_saved (log_path input_file output_file))
          end lr.2 in
        Run (result rest) (files_after rest)
          (check_prefix input_file dictionary ++ events rest)
    end.
Proof.
  intros Hags Hopen. unfold check. rewrite Hags.
  rewrite bind_print, Hopen. rewrite bind_print, accepts_empty.
  rewrite bind_unfold, !check_file_run.
  destruct (lib_check_file input_file dictionary fs) as [[d|e] fs1];
    cbn [fst snd result files_after events]; [|done].
  unfold check_prefix. by destruct d.
Qed.

(** The run of [check] on an [.ags] file whose report is not empty. *)
Lemma check_report_run input_file dictionary output_file fs (d : report) fs1 :
  Py.endswith input_file ".ags" = true →
  markup_error (msg_opening input_file) = false →
  lib_check_file input_file dictionary fs = (Returns d, fs1) →
  dict_wf d → d ≠ [] →
  check input_file dictionary output_file fs
  = let n := report_total d in
    let before := check_prefix input_file dictionary in
    if n <? 100 then
      let shown := console_run (screen_lines d) in
      match shown.1 with
      | Raises e => Run (Raises e) fs1 (before ++ shown.2)
      | Returns _ =>
          match output_file with
          | None =>
              Run (Returns tt) fs1
                (before ++ shown.2 ++ [ConsolePrint (msg_errors_found n)])
          | Some o =>
              saved_run o input_file n d (msg_saved_dot o) fs1
                (before ++ shown.2 ++ [ConsolePrint (msg_errors_found n)])
          end
      end
    else
      let p := log_path input_file output_file in
      saved_run p input_file n d (msg_saved p) fs1
        (before ++ [ConsolePrint (msg_errors_found n); ConsolePrint msg_too_long]).
Proof.
  intros Hags Hopen Hlib Hwf Hne.
  rewrite check_checker_run by done. rewrite Hlib. cbv zeta. cbn [fst snd].
  assert (∀ a b : M unit, match d with [] => a | _ :: _ => b end = b) as ->
    by (by destruct d).
  rewrite count_errors_total.
  destruct (report_total d <? 100).
  - rewrite bind_unfold, !print_to_screen_run by done.
    destruct (console_run (screen_lines d)) as [[[]|e] shown];
      cbn [fst snd result files_after events]; [|done].
    rewrite bind_print, accepts_errors_found.
    destruct output_file as [o|].
    + rewrite save_then_print by done. cbn [result files_after events].
      rewrite (saved_run_events _ _ _ _ _ _ (_ ++ _)).
      by rewrite <- ?app_assoc.
    + unfold ret. cbn [result files_after events]. by rewrite <- ?app_assoc.
  - rewrite bind_print, accepts_errors_found.
    rewrite bind_print, accepts_too_long.
    rewrite save_then_print by done. cbn [result files_after events].
    by rewrite (saved_run_events _ _ _ _ _ _ (_ ++ _)).
Qed.

End CheckFacts.

(** ** The model against the expected output *)

Section ExpectedOutput.

Lemma lstrip_spec c s :
  ∃ n, s = repeat_char n c +:+ Py.lstrip c s
       ∧ first_char (Py.lstrip c s) ≠ Some c.
Proof.
  induction s as [|a s (n & Hs & Hfirst)]; [by exists 0|].
  cbn [Py.lstrip]. destruct (Ascii.eqb_spec a c) as [->|Hne].
  - exists (S n). split; [|done]. cbn [repeat_char]. rewrite app_cons. by f_equal.
  - exists 0. split; [done|]. cbn [first_char]. congruence.
Qed.

Lemma last_char_cons_cons a b s : last_char (String a (String b s)) = last_char (String b s).
Proof. cbn [last_char]. by destruct (last_char s). Qed.

Lemma rstrip_spec c s :
  ∃ m, s = Py.rstrip c s +:+ repeat_char m c
       ∧ last_char (Py.rstrip c s) ≠ Some c
       ∧ (first_char s ≠ Some c → first_char (Py.rstrip c s) ≠ Some c).
Proof.
  induction s as [|a s (m & Hs & Hlast & _)]; [by exists 0|].
  cbn [Py.rstrip]. destruct (Py.rstrip c s) as [|b r] eqn:Hr.
  - rewrite app_empty_l in Hs. destruct (Ascii.eqb_spec a c) as [->|Hne].
    + exists (S m). rewrite app_empty_l. cbn [repeat_char]. by rewrite <- Hs.
    + exists m. rewrite app_cons, app_empty_l, <- Hs.
      split; [done|]. cbn [last_char first_char]. split; congruence.
  - exists m. rewrite app_cons, <- Hs. split; [done|].
    rewrite last_char_cons_cons. split; [done|]. by cbn [first_char].
Qed.

Lemma strip_is_label group : is_label_of (Py.strip Py.DQUOTE group) group.
Proof.
  destruct (lstrip_spec Py.DQUOTE group) as (n & Hl & Hfirst).
  destruct (rstrip_spec Py.DQUOTE (Py.lstrip Py.DQUOTE group))
    as (m & Hr & Hlast & Hkeep).
  exists n, m. unfold Py.strip, Py.DQUOTE in *.
  split; [by rewrite <- Hr|]. split; [by apply Hkeep|done].
Qed.

Lemma screen_entry_shown (e : entry) : record_shown (screen_entry e) e.
Proof.
  exists (Py.strip Py.DQUOTE (entry_group e)). split; [apply strip_is_label|].
  unfold screen_entry, fmt_line, line_text, Py.str_of_Z. by destruct (entry_line e).
Qed.

Lemma log_entry_logged (e : entry) : record_logged (log_entry e) e.
Proof.
  exists (Py.strip Py.DQUOTE (entry_group e)). split; [apply strip_is_label|].
  unfold log_entry, fmt_line, line_text, Py.str_of_Z. by destruct (entry_line e).
Qed.

Lemma screen_lines_shown (d : report) : report_shown (screen_lines d) d.
Proof.
  exists ((λ kv, screen_key kv.1 :: (screen_entry <$> kv.2) ++ [""]) <$> d).
  split.
  - unfold screen_lines. induction d as [|kv d IH]; [done|].
    by rewrite bind_cons, fmap_cons, IH.
  - apply Forall2_fmap_l, Forall_Forall2_diag, Forall_forall. intros kv _.
    exists (screen_entry <$> kv.2). split; [done|].
    apply Forall2_fmap_l, Forall_Forall2_diag, Forall_forall. intros e _.
    apply screen_entry_shown.
Qed.

Lemma log_chunks_logged (d : report) : report_logged (d ≫= log_group) d.
Proof.
  exists (log_group <$> d). split.
  - induction d as [|kv d IH]; [done|]. by rewrite bind_cons, fmap_cons, IH.
  - apply Forall2_fmap_l, Forall_Forall2_diag, Forall_forall. intros kv _.
    exists (log_entry <$> kv.2). split; [done|].
    apply Forall2_fmap_l, Forall_Forall2_diag, Forall_forall. intros e _.
    apply log_entry_logged.
Qed.

Lemma log_text_holds input_file (n : nat) (d : report) :
  log_holds (log_text input_file n d) input_file n d.
Proof.
  exists (d ≫= log_group). split; [apply log_chunks_logged|].
  unfold log_text, log_chunks, Py.str_of_nat. cbn [app str_concat foldr].
  by rewrite !app_assoc_str.
Qed.


Lemma report_logged_group chunks (d : report) key val :
  report_logged chunks d → (key, val) ∈ d →
  ∃ before records after,
    chunks = before ++ (key +:+ ":" +:+ Py.LF) :: records ++ after
    ∧ Forall2 record_logged records val.
Proof.
  intros (groups & -> & Hgroups) (d1 & d2 & ->)%list_elem_of_split.
  apply Forall2_app_inv_r in Hgroups as (g1 & g2 & _ & Hg2 & ->).
  apply Forall2_cons_inv_r in Hg2 as (g & g2' & (records & -> & Hrec) & _ & ->).
  exists (concat g1), records, ([Py.LF] ++ concat g2').
  split; [|done]. cbn [fst snd] in *. rewrite concat_app, concat_cons.
  by rewrite <- app_comm_cons, <- !app_assoc.
Qed.

End ExpectedOutput.

(** ** The [convert] subcommand *)

Section ConvertFacts.

Context {ags4 : AGS4_library} {platform : Platform} {rich : Rich}.

(** The two prints that open a conversion: the run goes on when the
    console accepts both paths. *)
Lemma convert_opening_run {B} (input_file output_file : string) (k : M B) fs :
  (console_print (msg_opening input_file) ;;
   console_print (msg_exporting output_file) ;;
   builtin_print "" ;; k) fs
  = if markup_error (msg_opening input_file) then
      Run (Raises (MarkupError (msg_opening input_file))) fs []
    else if markup_error (msg_exporting output_file) then
      Run (Raises (MarkupError (msg_exporting output_file))) fs
        [ConsolePrint (msg_opening input_file)]
    else
      Run (result (k fs)) (files_after (k fs))
        (ConsolePrint (msg_opening input_file)
         :: ConsolePrint (msg_exporting output_file)
         :: BuiltinPrint "" :: events (k fs)).
Proof.
  rewrite bind_print. destruct (markup_error (msg_opening input_file)); [done|].
  rewrite bind_print. destruct (markup_error (msg_exporting output_file)); [done|].
  unfold builtin_print. by rewrite bind_emit.
Qed.

Lemma convert_ags_to_xlsx_run (input_file output_file : File) format_columns
    dictionary fs :
  Py.endswith (name input_file) ".ags" = true →
  Py.endswith (name output_file) ".xlsx" = true →
  convert input_file output_file format_columns dictionary fs
  = if markup_error (msg_opening (name input_file)) then
      Run (Raises (MarkupError (msg_opening (name input_file)))) fs []
    else if markup_error (msg_exporting (name output_file)) then
      Run (Raises (MarkupError (msg_exporting (name output_file)))) fs
        [ConsolePrint (msg_opening (name input_file))]
    else
      let lr := lib_AGS4_to_excel (name input_file) (name output_file) fs in
      Run lr.1 lr.2
        ([ ConsolePrint (msg_opening (name input_file));
           ConsolePrint (msg_exporting (name output_file));
           BuiltinPrint "";
           CallAGS4ToExcel (name input_file) (name output_file) ]
         ++ match lr.1 with
            | Returns _ => [ConsolePrint msg_conversion_complete]
            | Raises _ => []
            end).
Proof.
  intros Hin Hout. unfold convert. rewrite Hin, Hout. cbn [andb].
  rewrite convert_opening_run.
  destruct (markup_error (msg_opening _)); [done|].
  destruct (markup_error (msg_exporting _)); [done|].
  rewrite bind_unfold. unfold AGS4_to_excel.
  destruct (lib_AGS4_to_excel _ _ fs) as [[[]|e] fs'];
    cbn [fst snd result files_after events]; [|done].
  by rewrite console_print_accepted by apply accepts_conversion_complete.
Qed.

Lemma convert_xlsx_to_ags_run (input_file output_file : File) format_columns
    dictionary fs :
  Py.endswith (name input_file) ".xlsx" = true →
  Py.endswith (name output_file) ".ags" = true →
  convert input_file output_file format_columns dictionary fs
  = if markup_error (msg_opening (name input_file)) then
      Run (Raises (MarkupError (msg_opening (name input_file)))) fs []
    else if markup_error (msg_exporting (name output_file)) then
      Run (Raises (MarkupError (msg_exporting (name output_file)))) fs
        [ConsolePrint (msg_opening (name input_file))]
    else
      let flag := Py.str_in (Py.lower format_columns) ["true"; "yes"] in
      let lr := lib_excel_to_AGS4 (name input_file) (name output_file) flag
                  (name <$> dictionary) fs in
      Run lr.1 lr.2
        ([ ConsolePrint (msg_opening (name input_file));
           ConsolePrint (msg_exporting (name output_file));
           BuiltinPrint "";
           CallExcelToAGS4 (name input_file) (name output_file) flag
             (name <$> dictionary) ]
         ++ match lr.1 with
            | Returns _ => [ConsolePrint msg_conversion_complete]
            | Raises _ => []
            end).
Proof.
  intros Hin Hout. unfold convert.
  rewrite (endswith_xlsx_not_ags _ Hin), Hin, Hout. cbn [andb].
  rewrite convert_opening_run.
  destruct (markup_error (msg_opening _)); [done|].
  destruct (markup_error (msg_exporting _)); [done|].
  replace (match dictionary with Some d => Some (name d) | None => None end)
    with (name <$> dictionary) by (by destruct dictionary).
  rewrite bind_unfold. unfold excel_to_AGS4.
  destruct (lib_excel_to_AGS4 _ _ _ _ fs) as [[[]|e] fs'];
    cbn [fst snd result files_after events]; [|done].
  by rewrite console_print_accepted by apply accepts_conversion_complete.
Qed.

Lemma convert_no_conversion_run (input_file output_file : File) format_columns
    dictionary fs :
  pairing (name input_file) (name output_file) ".ags" ".xlsx" = false →
  pairing (name input_file) (name output_file) ".xlsx" ".ags" = false →
  convert input_file output_file format_columns dictionary fs
  = if pairing (name input_file) (name output_file) ".ags" ".ags"
       || pairing (name input_file) (name output_file) ".xlsx" ".xlsx"
    then Run (Returns tt) fs
           [ConsolePrint (msg_same_type
              (if Py.endswith (name input_file) ".ags" then "ags" else "xlsx"))]
    else Run (Returns tt) fs
           [ConsolePrint msg_invalid_filenames; ConsolePrint msg_try_help].
Proof.
  unfold pairing. intros H1 H2. unfold convert. rewrite H1, H2.
  assert (∀ fs', (console_print msg_invalid_filenames ;;
                  console_print msg_try_help) fs'
                 = Run (Returns tt) fs'
                     [ConsolePrint msg_invalid_filenames; ConsolePrint msg_try_help])
    as Hinvalid.
  { intros fs'. rewrite bind_print, accepts_invalid_filenames.
    by rewrite console_print_accepted by apply accepts_try_help. }
  destruct (Py.endswith (name input_file) ".ags") eqn:Hags.
  - rewrite (endswith_ags_not_xlsx _ Hags). cbn [andb orb].
    rewrite orb_false_r.
    destruct (Py.endswith (name output_file) ".ags"); [|apply Hinvalid].
    unfold list_last_item. rewrite (file_type_ags _ Hags), bind_ret_l.
    by rewrite console_print_accepted by apply accepts_same_type_ags.
  - cbn [andb orb].
    destruct (Py.endswith (name input_file) ".xlsx") eqn:Hxlsx; [|apply Hinvalid].
    cbn [andb].
    destruct (Py.endswith (name output_file) ".xlsx"); [|apply Hinvalid].
    unfold list_last_item. rewrite (file_type_xlsx _ Hxlsx), bind_ret_l.
    by rewrite console_print_accepted by apply accepts_same_type_xlsx.
Qed.

(** The values that lower to [true] or to [yes] are their spellings in
    any mix of cases. *)
Lemma lower_char_cases (c : ascii) :
  (Py.lower_char c = "t"%char → c = "t"%char ∨ c = "T"%char)
  ∧ (Py.lower_char c = "r"%char → c = "r"%char ∨ c = "R"%char)
  ∧ (Py.lower_char c = "u"%char → c = "u"%char ∨ c = "U"%char)
  ∧ (Py.lower_char c = "e"%char → c = "e"%char ∨ c = "E"%char)
  ∧ (Py.lower_char c = "y"%char → c = "y"%char ∨ c = "Y"%char)
  ∧ (Py.lower_char c = "s"%char → c = "s"%char ∨ c = "S"%char).
Proof.
  destruct c as [[] [] [] [] [] [] [] []]; vm_compute;
    repeat split; intros H; first [discriminate H | by left | by right].
Qed.

Lemma lower_true_spellings (value : string) :
  Py.lower value = "true" ↔ value ∈ true_spellings.
Proof.
  split.
  - destruct value as [|c1 [|c2 [|c3 [|c4 [|c5 v]]]]]; cbn [Py.lower];
      try discriminate.
    intros [= H1 H2 H3 H4].
    apply (lower_char_cases c1) in H1. apply (lower_char_cases c2) in H2.
    apply (lower_char_cases c3) in H3. apply (lower_char_cases c4) in H4.
    unfold true_spellings.
    destruct H1 as [-> | ->], H2 as [-> | ->], H3 as [-> | ->], H4 as [-> | ->];
      repeat first [apply list_elem_of_here | apply list_elem_of_further].
  - unfold true_spellings. intros H.
    repeat (apply elem_of_cons in H as [->|H]; [reflexivity|]).
    by apply elem_of_nil in H.
Qed.

Lemma lower_yes_spellings (value : string) :
  Py.lower value = "yes" ↔ value ∈ yes_spellings.
Proof.
  split.
  - destruct value as [|c1 [|c2 [|c3 [|c4 v]]]]; cbn [Py.lower]; try discriminate.
    intros [= H1 H2 H3].
    apply (lower_char_cases c1) in H1. apply (lower_char_cases c2) in H2.
    apply (lower_char_cases c3) in H3.
    unfold yes_spellings.
    destruct H1 as [-> | ->], H2 as [-> | ->], H3 as [-> | ->];
      repeat first [apply list_elem_of_here | apply list_elem_of_further].
  - unfold yes_spellings. intros H.
    repeat (apply elem_of_cons in H as [->|H]; [reflexivity|]).
    by apply elem_of_nil in H.
Qed.

Lemma lower_flag_spellings (value : string) :
  Py.str_in (Py.lower value) ["true"; "yes"]
  = existsb (String.eqb value) (true_spellings ++ yes_spellings).
Proof.
  apply Bool.eq_iff_eq_true. unfold Py.str_in. cbn [existsb].
  rewrite orb_false_r, orb_true_iff, !String.eqb_eq.
  rewrite lower_true_spellings, lower_yes_spellings, existsb_exists.
  split.
  - intros [H|H]; exists value; rewrite in_app_iff, <- !list_elem_of_In,
      String.eqb_refl; auto.
  - intros (x & Hx & ->%String.eqb_eq).
    by rewrite in_app_iff, <- !list_elem_of_In in Hx.
Qed.


(** C2, as amended: for an input path ending in [.xlsx] and an output path
    ending in [.ags] that the console accepts in its two opening messages,
    [convert] calls [excel_to_AGS4] exactly once, with the input path, the
    output path, the flag computed from the [format_columns] option and
    the name of the file opened for the [dictionary] option (the path
    given, or [<stdin>] when the option is [-]), or [None] when the option
    is absent; it calls no other conversion function. *)
Theorem C2_convert_xlsx_to_ags (input_file output_file : File)
    (format_columns : string) (dictionary : option string)
    (fs : gmap string string) :
  Py.endswith (name input_file) ".xlsx" = true →
  Py.endswith (name output_file) ".ags" = true →
  markup_error (opening_line (name input_file)) = false →
  markup_error (exporting_line (name output_file)) = false →
  let r := convert input_file output_file format_columns
             (File_r_of <$> dictionary) fs in
  let flag := existsb (String.eqb format_columns)
                (true_spellings ++ yes_spellings) in
  let dict := match dictionary with
              | Some value => Some (if String.eqb value "-" then "<stdin>" else value)
              | None => None
              end in
  conversion_calls (events r)
  = [CallExcelToAGS4 (name input_file) (name output_file) flag dict]
  ∧ result r
    = (lib_excel_to_AGS4 (name input_file) (name output_file) flag dict fs).1
  ∧ files_after r
    = (lib_excel_to_AGS4 (name input_file) (name output_file) flag dict fs).2
  ∧ (∀ value fs', dictionary = Some value → readable fs' value →
       result (click_File_r "dictionary" value fs') = Returns (File_r_of value)).
Proof.
  intros Hin Hout Hopen Hexport r flag dict. subst r flag.
  rewrite <- lower_flag_spellings.
  rewrite convert_xlsx_to_ags_run by done.
  change (msg_opening (name input_file)) with (opening_line (name input_file)).
  change (msg_exporting (name output_file)) with (exporting_line (name output_file)).
  rewrite Hopen, Hexport.
  replace dict with (name <$> (File_r_of <$> dictionary))
    by (by destruct dictionary).
  cbv zeta. cbn [result files_after events].
  split; [by destruct (lib_excel_to_AGS4 _ _ _ _ fs).1|].
  split; [done|]. split; [done|].
  intros value fs' _ Hread. unfold click_File_r, File_r_of.
  destruct (String.eqb_spec value "-") as [->|Hne]; [done|].
  by destruct Hread as [?|[c ->]].
Qed.


(** C4: when the pair of paths is none of ([.ags], [.xlsx]),
    ([.xlsx], [.ags]), ([.ags], [.ags]) and ([.xlsx], [.xlsx]), [convert]
    prints the [Invalid filenames] error and the hint, calls no
    conversion function, and returns without raising. *)
Theorem C4_convert_invalid_pairing (input_file output_file : File)
    (format_columns : string) (dictionary : option File) (fs : gmap string string) :
  pairing (name input_file) (name output_file) ".ags" ".xlsx" = false →
  pairing (name input_file) (name output_file) ".xlsx" ".ags" = false →
  pairing (name input_file) (name output_file) ".ags" ".ags" = false →
  pairing (name input_file) (name output_file) ".xlsx" ".xlsx" = false →
  let r := convert input_file output_file format_columns dictionary fs in
  r = Run (Returns tt) fs
        [ConsolePrint "[red]ERROR: Invalid filenames.[/red]"; ConsolePrint msg_try_help]
  ∧ conversion_calls (events r) = [].
Proof.
  intros H1 H2 H3 H4 r. subst r.
  rewrite convert_no_conversion_run by done. by rewrite H3, H4.
Qed.

(** C10: in the [.xlsx] to [.ags] branch, the flag of every call of
    [excel_to_AGS4] is true exactly when the [format_columns] option is
    absent (its default is [true]) or is [true] or [yes] in any mix of
    upper and lower case; any other value gives false.  No value of the
    option makes [convert] raise: for paths the console accepts in its
    two opening messages there is one call, and [convert] returns or
    raises as that call does. *)
Theorem C10_format_numeric_columns_flag (input_file output_file : File)
    (format_columns : option string) (dictionary : option File)
    (fs : gmap string string) :
  Py.endswith (name input_file) ".xlsx" = true →
  Py.endswith (name output_file) ".ags" = true →
  let r := convert input_file output_file (default "true" format_columns)
             dictionary fs in
  ∃ flag : bool,
    (flag = true ↔
       match format_columns with
       | None => True
       | Some value =>
           value ∈ [ "true"; "truE"; "trUe"; "trUE"; "tRue"; "tRuE"; "tRUe"; "tRUE";
                     "True"; "TruE"; "TrUe"; "TrUE"; "TRue"; "TRuE"; "TRUe"; "TRUE" ]
           ∨ value ∈ [ "yes"; "yeS"; "yEs"; "yES"; "Yes"; "YeS"; "YEs"; "YES" ]
       end)
    ∧ (∀ call, call ∈ conversion_calls (events r) →
         call = CallExcelToAGS4 (name input_file) (name output_file) flag
                  (name <$> dictionary))
    ∧ (markup_error (opening_line (name input_file)) = false →
       markup_error (exporting_line (name output_file)) = false →
       conversion_calls (events r)
       = [CallExcelToAGS4 (name input_file) (name output_file) flag
            (name <$> dictionary)]
       ∧ result r
         = (lib_excel_to_AGS4 (name input_file) (name output_file) flag
              (name <$> dictionary) fs).1).
Proof.
  intros Hin Hout r. subst r.
  exists (Py.str_in (Py.lower (default "true" format_columns)) ["true"; "yes"]).
  rewrite convert_xlsx_to_ags_run by done.
  change (msg_opening (name input_file)) with (opening_line (name input_file)).
  change (msg_exporting (name output_file)) with (exporting_line (name output_file)).
  split; [|split].
  - destruct format_columns as [value|]; [|done]. cbn [default].
    unfold Py.str_in. cbn [existsb]. rewrite orb_false_r, orb_true_iff.
    rewrite !String.eqb_eq.
    by rewrite lower_true_spellings, lower_yes_spellings.
  - intros call.
    destruct (markup_error (opening_line _)); [by intros ?%elem_of_nil|].
    destruct (markup_error (exporting_line _)); [by intros ?%elem_of_nil|].
    cbv zeta. cbn [result files_after events].
    destruct (lib_excel_to_AGS4 _ _ _ _ fs).1; cbn; by intros ->%list_elem_of_singleton.
  - intros -> ->. cbv zeta. cbn [result files_after events]. split; [|done].
    by destruct (lib_excel_to_AGS4 _ _ _ _ fs).1.
Qed.

(** *** The command: parameters are converted before the callback *)

Lemma click_File_r_run param value fs :
  readable fs value →
  click_File_r param value fs
  = Run (Returns (File_r_of value)) fs (open_r_events value).
Proof.
  unfold click_File_r, File_r_of, open_r_events, readable.
  destruct (String.eqb_spec value "-") as [->|Hne]; [done|].
  by intros [?|[c ->]].
Qed.

Lemma click_File_w_eager_run param value fs :
  value ≠ "-" → can_write value = true →
  click_File_w_eager param value fs
  = Run (Returns {| name := value |}) (<[value := ""]> fs) [FileOpen value ModeW].
Proof.
  intros Hne Hw. unfold click_File_w_eager. rewrite Hw.
  by destruct (String.eqb_spec value "-").
Qed.

(** C8, as amended: when the parameters before the output file convert
    (the dictionary, if given, and the input file are standard input or
    existing files) and the output argument is a path, not [-], that can be
    opened for writing, the command opens the output file for writing,
    creating or truncating it, after the read opens and before the
    callback, hence before the extension dispatch; when no conversion
    applies (same extension or invalid pairing) the command returns and
    the files are those at the start with the output file empty. *)
Theorem C8_convert_command_opens_output_first (input_file output_file : string)
    (format_columns : option string) (dictionary : option string)
    (fs : gmap string string) :
  (∀ d, dictionary = Some d → readable fs d) →
  readable fs input_file →
  output_file ≠ "-" →
  can_write output_file = true →
  let r := convert_command input_file output_file format_columns dictionary fs in
  let body := convert (File_r_of input_file) {| name := output_file |}
                (default "true" format_columns) (File_r_of <$> dictionary)
                (<[output_file := ""]> fs) in
  r = Run (result body) (files_after body)
        (from_option open_r_events [] dictionary ++ open_r_events input_file
         ++ FileOpen output_file ModeW :: events body)
  ∧ (pairing (name (File_r_of input_file)) output_file ".ags" ".xlsx" = false →
     pairing (name (File_r_of input_file)) output_file ".xlsx" ".ags" = false →
     result r = Returns tt
     ∧ files_after r = <[output_file := ""]> fs
     ∧ files_after r !! output_file = Some "").
Proof.
  intros Hdict Hin Hne Hw r body.
  assert (r = Run (result body) (files_after body)
        (from_option open_r_events [] dictionary ++ open_r_events input_file
         ++ FileOpen output_file ModeW :: events body)) as Hr.
  { subst r body. unfold convert_command.
    destruct dictionary as [d|]; cbn [fmap option_fmap option_map from_option].
    - erewrite bind_returns; last first.
      { erewrite bind_returns by (apply click_File_r_run; by apply Hdict).
        unfold ret. cbn [result files_after events]. by rewrite app_nil_r. }
      erewrite bind_returns by (by apply click_File_r_run).
      erewrite bind_returns by (by apply click_File_w_eager_run).
      cbn [result files_after events]. by rewrite <- ?app_assoc.
    - rewrite bind_ret_l.
      erewrite bind_returns by (by apply click_File_r_run).
      erewrite bind_returns by (by apply click_File_w_eager_run).
      cbn [result files_after events]. by rewrite <- ?app_assoc. }
  split; [done|]. intros H1 H2. rewrite Hr. cbn [result files_after].
  subst body. rewrite convert_no_conversion_run by done.
  destruct (_ || _); cbn [result files_after]; by rewrite lookup_insert_eq.
Qed.

End ConvertFacts.

(** ** The [check] subcommand *)

(** Texts that differ in one of their first characters. *)
Ltac str_discr H :=
  unfold opening_line, exporting_line, complete_line, no_errors_line,
    msg_opening, msg_exporting, msg_conversion_complete, count_line, too_long_line, saved_line, saved_dot_line,
    screen_key, screen_entry, Py.LF in H;
  rewrite ?app_cons in H; discriminate H.

Lemma console_print_inj a b : ConsolePrint a = ConsolePrint b → a = b.
Proof. by intros [= ->]. Qed.

Section CheckProperties.

Context {ags4 : AGS4_library} {platform : Platform} {rich : Rich}.

Lemma log_chunks_written input_file (n : nat) (d : report) :
  log_written (log_chunks input_file n d) input_file n d.
Proof. exists (d ≫= log_group). split; [apply log_chunks_logged|done]. Qed.

(** What a line of a report can be. *)
Lemma screen_lines_inv (d : report) line :
  line ∈ screen_lines d →
  (∃ key, line = screen_key key) ∨ (∃ e, line = screen_entry e) ∨ line = "".
Proof.
  unfold screen_lines. intros ([key val] & Hline & _)%list_elem_of_bind.
  cbn [fst snd] in Hline.
  apply elem_of_cons in Hline as [->|Hline]; [left; by eexists|].
  apply elem_of_app in Hline as [Hline|Hline].
  - apply list_elem_of_fmap in Hline as (e & -> & _). right; left. by eexists.
  - apply list_elem_of_singleton in Hline as ->. by right; right.
Qed.

Lemma report_shown_inv lines (d : report) line :
  report_shown lines d → line ∈ lines →
  (∃ key, line = "[underline]" +:+ key +:+ "[/underline]:")
  ∨ (∃ e, record_shown line e) ∨ line = "".
Proof.
  intros (groups & -> & Hgroups) Hline.
  apply list_elem_of_In, in_concat in Hline as (group & Hgroup & Hline).
  apply list_elem_of_In in Hgroup, Hline.
  apply list_elem_of_lookup in Hgroup as [i Hi].
  destruct (Forall2_lookup_l _ _ _ i group Hgroups Hi)
    as (kv & _ & records & -> & Hrecords).
  apply elem_of_cons in Hline as [->|Hline]; [left; by eexists|].
  apply elem_of_app in Hline as [Hline|Hline].
  - apply list_elem_of_lookup in Hline as [j Hj].
    destruct (Forall2_lookup_l _ _ _ j line Hrecords Hj) as (e & _ & He).
    right; left. by exists e.
  - apply list_elem_of_singleton in Hline as ->. by right; right.
Qed.

Lemma str_app_inv_tail s1 s2 s : s1 +:+ s = s2 +:+ s → s1 = s2.
Proof.
  revert s2. induction s1 as [|c s1 IH]; intros [|c2 s2] Heq; [done|..].
  - apply (f_equal String.length) in Heq.
    rewrite app_empty_l, length_app_str in Heq. simpl in Heq. lia.
  - apply (f_equal String.length) in Heq.
    rewrite app_empty_l, length_app_str in Heq. simpl in Heq. lia.
  - rewrite !app_cons in Heq. injection Heq as -> Heq. f_equal. by apply IH.
Qed.

Lemma count_line_inj k n : count_line k = count_line n → k = n.
Proof.
  unfold count_line. intros Heq. apply String.app_inj in Heq.
  apply String.app_inj in Heq. apply str_app_inv_tail in Heq.
  by apply (inj pretty).
Qed.

Lemma shown_not_message line (d : report) input_file path (k : nat) :
  line ∈ screen_lines d → line ≠ "" →
  line ≠ opening_line input_file ∧ line ≠ count_line k ∧ line ≠ too_long_line
  ∧ line ≠ saved_line path ∧ line ≠ saved_dot_line path.
Proof.
  intros [[key ->]|[[e ->]| ->]]%screen_lines_inv Hne; [| |done];
    repeat split; intros Heq; str_discr Heq.
Qed.

Lemma report_shown_not_message lines line (d : report) input_file path (k : nat) :
  report_shown lines d → line ∈ lines → line ≠ "" →
  line ≠ opening_line input_file ∧ line ≠ count_line k ∧ line ≠ too_long_line
  ∧ line ≠ saved_line path ∧ line ≠ saved_dot_line path.
Proof.
  intros Hshown Hline Hne.
  destruct (report_shown_inv _ _ _ Hshown Hline)
    as [[key ->]|[(e & label & _ & ->)| ->]]; [| |done];
    repeat split; intros Heq; str_discr Heq.
Qed.

(** The events of a run that saves the log. *)
Lemma saved_run_console path input_file n (d : report) message fs evs m :
  ConsolePrint m ∈ events (saved_run path input_file n d message fs evs) →
  ConsolePrint m ∈ evs ∨ m = message.
Proof.
  unfold saved_run, save_events. destruct (can_write path); [|by left].
  destruct (markup_error message); cbn [events];
    rewrite ?elem_of_app, ?elem_of_cons, ?elem_of_app, ?list_elem_of_fmap,
      ?list_elem_of_singleton;
    intros H; split_ors; destruct_and?; simplify_eq; auto;
    by match goal with H : _ ∈ [] |- _ => apply elem_of_nil in H end.
Qed.

Lemma saved_run_open path input_file n (d : report) message fs evs p :
  FileOpen p ModeW ∈ events (saved_run path input_file n d message fs evs) →
  FileOpen p ModeW ∈ evs
  ∨ (p = path ∧ can_write path = true
     ∧ files_after (saved_run path input_file n d message fs evs) !! path
       = Some (log_text input_file n d)
     ∧ ∃ after,
         events (saved_run path input_file n d message fs evs)
         = evs ++ FileOpen path ModeW
             :: (FileWrite path <$> log_chunks input_file n d)
             ++ FileClose path :: after).
Proof.
  unfold saved_run, save_events. destruct (can_write path); [|by left].
  destruct (markup_error message); cbn [events files_after];
    rewrite ?elem_of_app, ?elem_of_cons, ?elem_of_app, ?list_elem_of_fmap,
      ?list_elem_of_singleton;
    intros H; split_ors; destruct_and?; simplify_eq; auto;
    try by match goal with H : _ ∈ [] |- _ => apply elem_of_nil in H end.
  - right. repeat split; [apply lookup_insert_eq|]. exists []. done.
  - right. repeat split; [apply lookup_insert_eq|].
    exists [ConsolePrint message]. cbn [app]. by rewrite <- !app_assoc.
Qed.


Lemma report_total_sum (d : report) :
  report_total d = sum_list (length <$> d.*2).
Proof.
  unfold report_total. induction d as [|kv d IH]; [done|].
  cbn. by rewrite IH.
Qed.

Lemma log_text_written input_file (n : nat) (d : report) :
  log_text input_file n d = str_concat (log_chunks input_file n d).
Proof. done. Qed.

Lemma count_line_not_shown (d : report) k : count_line k ∉ screen_lines d.
Proof.
  intros [[key Hk]|[[e Hk]|Hk]]%screen_lines_inv; str_discr Hk.
Qed.

Lemma saved_run_prefix path input_file n (d : report) message fs evs :
  ∃ after, events (saved_run path input_file n d message fs evs) = evs ++ after.
Proof.
  unfold saved_run. destruct (can_write path); [|exists []; by rewrite app_nil_r].
  destruct (markup_error message); by eexists.
Qed.

(** The runs of [check] on a report: the checker, lines of the report,
    the count and the too-long message, and then possibly the log. *)
Lemma report_run_facts input_file dictionary (d : report) lines tail n fs1
    (r : run unit) :
  (∀ m, m ∈ lines → m ∈ screen_lines d) →
  (∀ e, e ∈ tail → e = ConsolePrint (count_line n) ∨ e = ConsolePrint too_long_line) →
  (∃ res, r = Run res fs1
                (check_prefix input_file dictionary ++ (ConsolePrint <$> lines) ++ tail))
  ∨ (∃ p message, (message = saved_line p ∨ message = saved_dot_line p)
       ∧ r = saved_run p input_file n d message fs1
               (check_prefix input_file dictionary
                ++ (ConsolePrint <$> lines) ++ tail)) →
  (∀ k, ConsolePrint (count_line k) ∈ events r → k = n)
  ∧ (∀ path, FileOpen path ModeW ∈ events r →
       ∃ chunks before after, log_written chunks input_file n d
         ∧ files_after r !! path = Some (str_concat chunks)
         ∧ events r
           = before ++ FileOpen path ModeW :: (FileWrite path <$> chunks)
             ++ FileClose path :: after).
Proof.
  intros Hlines Htail Hr.
  assert (∀ k, ConsolePrint (count_line k)
               ∈ check_prefix input_file dictionary
                 ++ (ConsolePrint <$> lines) ++ tail → k = n) as Hcount.
  { intros k. rewrite !elem_of_app. intros [Hin|[Hin|Hin]].
    - unfold check_prefix in Hin. rewrite !elem_of_cons, elem_of_nil in Hin.
      split_ors; by simplify_eq.
    - apply list_elem_of_fmap in Hin as (m & [= <-] & Hm).
      by apply Hlines, count_line_not_shown in Hm.
    - destruct (Htail _ Hin) as [Hk|Hk]; apply console_print_inj in Hk;
        [by apply count_line_inj|str_discr Hk]. }
  assert (∀ path, FileOpen path ModeW
                  ∉ check_prefix input_file dictionary
                    ++ (ConsolePrint <$> lines) ++ tail) as Hopen.
  { intros path. rewrite !elem_of_app. intros [Hin|[Hin|Hin]].
    - unfold check_prefix in Hin. rewrite !elem_of_cons, elem_of_nil in Hin.
      split_ors; by simplify_eq.
    - by apply list_elem_of_fmap in Hin as (m & [=] & _).
    - by destruct (Htail _ Hin). }
  destruct Hr as [[res ->]|(p & message & Hmessage & ->)]; cbn [events].
  - split; [done|]. intros path Hin. by apply Hopen in Hin.
  - split.
    + intros k [Hin|Hk]%saved_run_console; [by apply Hcount|].
      destruct Hmessage as [-> | ->]; str_discr Hk.
    + intros path [Hin|(-> & _ & Hfile & after & Hevents)]%saved_run_open;
        [by apply Hopen in Hin|].
      exists (log_chunks input_file n d). eexists. exists after.
      split; [apply log_chunks_written|]. split; [done|]. exact Hevents.
Qed.

(** C6 (amended): for an input ending in .ags whose report has 100
    records or more, and whose path the console accepts in the opening
    message, [check] prints no key and no record of the report; it prints
    the count and that the report is too long, and saves the log in the
    path of the output option or, without it, in [error_log.txt] in the
    directory of the input.  When that path opens for writing, the file
    holds the whole log and [check] returns after the closing message (or
    raises the markup error of that message); when it does not, [check]
    raises the error of the open and nothing is written. *)
Theorem C6_check_saves_long_report
    input_file dictionary output_file fs (d : report) fs1 :
  Py.endswith input_file ".ags" = true →
  lib_check_file input_file dictionary fs = (Returns d, fs1) →
  dict_wf d → 100 ≤ report_total d →
  markup_error (opening_line input_file) = false →
  let r := check input_file dictionary output_file fs in
  let n := report_total d in
  let path := match output_file with
              | Some o => o
              | None => os_path_join (os_path_dirname input_file) "error_log.txt"
              end in
  (∀ lines line, report_shown lines d → line ∈ lines → line ≠ "" →
     ConsolePrint line ∉ events r)
  ∧ (if can_write path then
       ∃ chunks, log_written chunks input_file n d
         ∧ files_after r = <[path := str_concat chunks]> fs1
         ∧ events r
           = checker_events input_file dictionary
             ++ [ConsolePrint (count_line n); ConsolePrint too_long_line]
             ++ FileOpen path ModeW :: (FileWrite path <$> chunks)
             ++ FileClose path
                :: (if markup_error (saved_line path) then []
                    else [ConsolePrint (saved_line path)])
         ∧ result r
           = (if markup_error (saved_line path)
              then Raises (MarkupError (saved_line path)) else Returns tt)
     else
       r = Run (Raises (OSError path)) fs1
             (checker_events input_file dictionary
              ++ [ConsolePrint (count_line n); ConsolePrint too_long_line])).
Proof.
  intros Hags Hlib Hwf Hge Hopen r n path.
  assert (d ≠ []) as Hne by (intros ->; cbn in Hge; lia).
  subst r. rewrite (check_report_run _ _ _ _ d fs1) by done. cbv zeta.
  assert ((report_total d <? 100) = false) as -> by (apply Nat.ltb_ge; lia).
  change (log_path input_file output_file) with path. fold n. split.
  - intros lines line Hshown Hline Hnonempty Hin.
    destruct (report_shown_not_message lines line d input_file path n)
      as (H1 & H2 & H3 & H4 & _); [done..|].
    apply saved_run_console in Hin as [Hin| ->]; [|done].
    unfold check_prefix in Hin.
    rewrite elem_of_app, !elem_of_cons, !elem_of_nil in Hin.
    split_ors; simplify_eq.
  - unfold saved_run. destruct (can_write path); [|done].
    exists (log_chunks input_file n d).
    split; [apply log_chunks_written|].
    change (msg_saved path) with (saved_line path).
    destruct (markup_error (saved_line path));
      cbn [result files_after events]; (split; [done|]); (split; [|done]);
      unfold save_events, checker_events, check_prefix;
      by rewrite <- ?app_assoc, <- ?app_comm_cons, <- ?app_assoc.
Qed.

(** C7: for every report the checker returns, the count of [check] is the
    sum over the rule groups of the number of their records.  It is the
    only count a run prints, a run that returns has printed it, and it is
    in the second line of every log a run saves.  A saved log lists the
    groups in the order of the report and the records of each group in the
    order of its sequence; so do the lines printed for a report of fewer
    than 100 records, of which a run prints an initial part, and the count
    only after all of them. *)
Theorem C7_error_count_and_order
    input_file dictionary output_file fs (d : report) fs1 :
  Py.endswith input_file ".ags" = true →
  lib_check_file input_file dictionary fs = (Returns d, fs1) →
  dict_wf d → d ≠ [] →
  let r := check input_file dictionary output_file fs in
  let n := sum_list (length <$> d.*2) in
  count_errors d = n
  ∧ (∀ k, ConsolePrint (count_line k) ∈ events r → k = n)
  ∧ (result r = Returns tt → ConsolePrint (count_line n) ∈ events r)
  ∧ (∀ path, FileOpen path ModeW ∈ events r →
       ∃ chunks before after, log_written chunks input_file n d
         ∧ files_after r !! path = Some (str_concat chunks)
         ∧ events r
           = before ++ FileOpen path ModeW :: (FileWrite path <$> chunks)
             ++ FileClose path :: after)
  ∧ (n < 100 →
       ∃ lines k rest, report_shown lines d
         ∧ (events r = []
            ∨ events r
              = checker_events input_file dictionary
                ++ (ConsolePrint <$> take k lines) ++ rest)
         ∧ (rest = []
            ∨ take k lines = lines
              ∧ ∃ rest', rest = ConsolePrint (count_line n) :: rest')).
Proof.
  intros Hags Hlib Hwf Hne r n. subst n. rewrite <- report_total_sum.
  split; [apply count_errors_total|].
  destruct (markup_error (opening_line input_file)) eqn:Hopen.
  { subst r. rewrite check_opening_refused_run by done. cbn [events result].
    split; [by intros k ?%elem_of_nil|]. split; [done|].
    split; [by intros path ?%elem_of_nil|]. intros _. exists (screen_lines d), 0, [].
    split; [apply screen_lines_shown|]. by split; left. }
  subst r. rewrite (check_report_run _ _ _ _ d fs1) by done. cbv zeta.
  destruct (report_total d <? 100) eqn:Hlt.
  - destruct (console_run_events (screen_lines d)) as [k Hshown].
    destruct (console_run (screen_lines d)) as [[[]|e] shown] eqn:Hrun;
      cbn [fst snd] in *.
    + pose proof (console_run_returns (screen_lines d)) as Hacc.
      rewrite Hrun in Hacc. specialize (Hacc eq_refl).
      rewrite console_run_accepted in Hrun by done. injection Hrun as <-.
      clear k Hshown.
      change (msg_errors_found (report_total d)) with (count_line (report_total d)).
      set (evs := check_prefix input_file dictionary
                  ++ (ConsolePrint <$> screen_lines d)
                  ++ [ConsolePrint (count_line (report_total d))]).
      set (r := match output_file with
                | Some o => saved_run o input_file (report_total d) d (msg_saved_dot o) fs1 evs
                | None => Run (Returns tt) fs1 evs
                end).
      assert (∃ after, events r = evs ++ after) as [after Hevents].
      { subst r. destruct output_file as [o|]; [apply saved_run_prefix|].
        exists []. by rewrite app_nil_r. }
      destruct (report_run_facts input_file dictionary d (screen_lines d)
                  [ConsolePrint (count_line (report_total d))] (report_total d) fs1 r)
        as [Hcount Hsaved]; [done| |..].
      { intros e ->%list_elem_of_singleton. by left. }
      { subst r. destruct output_file as [o|]; [right|left; by eexists].
        exists o, (saved_dot_line o). split; [by right|done]. }
      split; [done|]. split.
      { intros _. rewrite Hevents. subst evs. rewrite !elem_of_app.
        left; right; right. by apply list_elem_of_singleton. }
      split; [done|]. intros _.
      exists (screen_lines d), (length (screen_lines d)),
        (ConsolePrint (count_line (report_total d)) :: after).
      split; [apply screen_lines_shown|]. rewrite firstn_all. split.
      * right. rewrite Hevents. subst evs.
        by rewrite <- ?app_assoc, <- ?app_comm_cons, <- ?app_assoc.
      * right. split; [done|]. by eexists.
    + subst shown. cbn [result events].
      destruct (report_run_facts input_file dictionary d (take k (screen_lines d))
                  [] (report_total d) fs1
                  (Run (Raises e) fs1
                     (check_prefix input_file dictionary
                      ++ (ConsolePrint <$> take k (screen_lines d)))))
        as [Hcount Hsaved].
      { intros m. apply (subseteq_take k (screen_lines d)). }
      { by intros e' ?%elem_of_nil. }
      { left. exists (Raises e). by rewrite app_nil_r. }
      cbn [result events files_after] in *.
      split; [done|]. split; [done|]. split; [done|]. intros _.
      exists (screen_lines d), k, [].
      split; [apply screen_lines_shown|]. split; [|by left].
      right. by rewrite app_nil_r.
  - change (msg_errors_found (report_total d)) with (count_line (report_total d)).
    change msg_too_long with too_long_line.
    set (p := log_path input_file output_file).
    set (evs := check_prefix input_file dictionary
                ++ [ConsolePrint (count_line (report_total d));
                    ConsolePrint too_long_line]).
    set (r := saved_run p input_file (report_total d) d (msg_saved p) fs1 evs).
    destruct (saved_run_prefix p input_file (report_total d) d (msg_saved p) fs1 evs)
      as [after Hevents]. fold r in Hevents.
    destruct (report_run_facts input_file dictionary d []
                [ConsolePrint (count_line (report_total d));
                 ConsolePrint too_long_line] (report_total d) fs1 r)
      as [Hcount Hsaved].
    { by intros m ?%elem_of_nil. }
    { intros e. rewrite !elem_of_cons, elem_of_nil. intros [->|[->|[]]]; auto. }
    { right. exists p, (saved_line p). split; [by left|done]. }
    split; [done|]. split.
    { intros _. rewrite Hevents. subst evs. rewrite !elem_of_app, !elem_of_cons.
      left; right; by left. }
    split; [done|]. intros Hlt'. apply Nat.ltb_ge in Hlt. lia.
Qed.

(** C9: for an input path that does not end in [.ags], [check] prints
    that only [.ags] files are accepted, does nothing else, and never
    calls the validation function. *)
Theorem C9_check_rejects_other_inputs (input_file dictionary : string)
    (output_file : option string) (fs : gmap string string) :
  Py.endswith input_file ".ags" = false →
  let r := check input_file dictionary output_file fs in
  r = Run (Returns tt) fs
        [ConsolePrint "[red]ERROR: Only .ags files are accepted as input.[/red]"]
  ∧ ∀ i d, CallCheckFile i d ∉ events r.
Proof.
  intros Hags r. subst r. unfold check. rewrite Hags.
  rewrite console_print_accepted by apply accepts_only_ags. split; [done|].
  intros i d Hin. cbn in Hin. by apply list_elem_of_singleton in Hin.
Qed.

End CheckProperties.

(** ** The properties on concrete runs *)



Lemma C2_witness :
  Py.endswith "a.xlsx" ".xlsx" = true
  ∧ Py.endswith "a.ags" ".ags" = true
  ∧ conversion_calls
      (events (convert (ags4 := library_double (Returns [])) (rich := rich_console)
                 {| name := "a.xlsx" |} {| name := "a.ags" |} "Yes"
                 (Some {| name := "dict.ags" |}) ∅))
    = [CallExcelToAGS4 "a.xlsx" "a.ags" true (Some "dict.ags")].
Proof.
  split; [reflexivity|]. split; [reflexivity|].
  destruct (C2_convert_xlsx_to_ags (ags4 := library_double (Returns []))
              (rich := rich_console)
              {| name := "a.xlsx" |} {| name := "a.ags" |} "Yes"
              (Some "dict.ags") ∅ eq_refl eq_refl
              ltac:(vm_compute; reflexivity) ltac:(vm_compute; reflexivity))
    as [Hcalls _].
  exact Hcalls.
Defined.

(** C2, as stated, fails twice.  With the option [-d -] the dictionary is
    the standard input, and the name passed to the conversion function is
    [<stdin>], not the path of the option.  And an output path with a
    closing tag that closes nothing ends the command with a markup error
    before the conversion function is called. *)
Lemma C2_counterexample :
  let fs : gmap string string := {[ "a.xlsx" := "sheet" ]} in
  let r := convert_command (ags4 := library_double (Returns []))
             (platform := posix_platform) (rich := rich_console)
             "a.xlsx" "a.ags" None (Some "-") fs in
  let r' := convert (ags4 := library_double (Returns [])) (rich := rich_console)
              {| name := "a.xlsx" |} {| name := "o[/u]t.ags" |} "true" None ∅ in
  conversion_calls (events r)
  = [CallExcelToAGS4 "a.xlsx" "a.ags" true (Some "<stdin>")]
  ∧ Py.endswith "o[/u]t.ags" ".ags" = true
  ∧ result r'
    = Raises (MarkupError
                "[green]Exporting data to... [bold]o[/u]t.ags[/bold][/green]")
  ∧ conversion_calls (events r') = [].
Proof. vm_compute. repeat split. Qed.


Lemma C4_witness :
  pairing "a.ags" "a.txt" ".ags" ".xlsx" = false
  ∧ pairing "a.ags" "a.txt" ".xlsx" ".ags" = false
  ∧ pairing "a.ags" "a.txt" ".ags" ".ags" = false
  ∧ pairing "a.ags" "a.txt" ".xlsx" ".xlsx" = false
  ∧ result (convert (ags4 := library_failing) (rich := rich_console)
              {| name := "a.ags" |} {| name := "a.txt" |} "true" None ∅)
    = Returns tt.
Proof.
  do 4 (split; [reflexivity|]).
  destruct (C4_convert_invalid_pairing (ags4 := library_failing)
              (rich := rich_console)
              {| name := "a.ags" |} {| name := "a.txt" |} "true" None ∅
              eq_refl eq_refl eq_refl eq_refl) as [Hrun _].
  rewrite Hrun. reflexivity.
Defined.



Lemma C6_witness :
  dict_wf long_report
  ∧ 100 ≤ report_total long_report
  ∧ ∃ chunks, log_written chunks "d/a.ags" 100 long_report
      ∧ files_after (check (ags4 := library_double (Returns long_report))
                       (platform := posix_platform) (rich := rich_console)
                       "d/a.ags" "dict.ags" None ∅)
        !! "d/error_log.txt"
        = Some (str_concat chunks).
Proof.
  assert (dict_wf long_report) as Hwf
    by (unfold dict_wf; apply (bool_decide_unpack _); vm_compute; exact I).
  assert (100 ≤ report_total long_report) as Hge by (vm_compute; lia).
  split; [exact Hwf|]. split; [exact Hge|].
  destruct (C6_check_saves_long_report
              (ags4 := library_double (Returns long_report))
              (platform := posix_platform) (rich := rich_console)
              "d/a.ags" "dict.ags" None ∅
              long_report ∅ eq_refl eq_refl Hwf Hge
              ltac:(vm_compute; reflexivity)) as [_ Hrun].
  cbv zeta in Hrun. change (can_write _) with true in Hrun. cbv iota in Hrun.
  destruct Hrun as (chunks & Hchunks & Hfiles & _).
  exists chunks. split; [exact Hchunks|].
  rewrite Hfiles. apply lookup_insert_eq.
Defined.

(** C6, as stated, fails twice for a report of 100 records.  When the
    log beside the input cannot be opened for writing, [check] raises the
    error of the open and no file holds the report.  When the input path
    has a closing tag that closes nothing, [check] raises the markup error
    of its first message: the checker is not called and nothing is
    written. *)
Lemma C6_counterexample :
  let r := check (ags4 := library_double (Returns long_report))
             (platform := posix_platform) (rich := rich_console)
             "/proc/1/a.ags" "dict.ags" None ∅ in
  let r' := check (ags4 := library_double (Returns long_report))
              (platform := posix_platform) (rich := rich_console)
              "d[/x]/a.ags" "dict.ags" None ∅ in
  report_total long_report = 100
  ∧ result r = Raises (OSError "/proc/1/error_log.txt")
  ∧ files_after r = ∅
  ∧ Py.endswith "d[/x]/a.ags" ".ags" = true
  ∧ result r'
    = Raises (MarkupError "[green]Opening file... [bold]d[/x]/a.ags[/bold][/green]")
  ∧ events r' = []
  ∧ files_after r' = ∅.
Proof. vm_compute. repeat split. Qed.

Lemma C7_witness :
  dict_wf sample_report
  ∧ count_errors sample_report = 3
  ∧ ∃ chunks, log_written chunks "d/a.ags" 3 sample_report
      ∧ files_after (check (ags4 := library_double (Returns sample_report))
                       (platform := posix_platform) (rich := rich_console)
                       "d/a.ags" "dict.ags" (Some "log.txt") ∅)
        !! "log.txt"
        = Some (str_concat chunks).
Proof.
  assert (dict_wf sample_report) as Hwf
    by (unfold dict_wf; apply (bool_decide_unpack _); vm_compute; exact I).
  split; [exact Hwf|].
  destruct (C7_error_count_and_order
              (ags4 := library_double (Returns sample_report))
              (platform := posix_platform) (rich := rich_console)
              "d/a.ags" "dict.ags" (Some "log.txt") ∅
              sample_report ∅ eq_refl eq_refl Hwf ltac:(discriminate))
    as (Hcount & _ & _ & Hlog & _).
  split; [exact Hcount|].
  destruct (Hlog "log.txt") as (chunks & _ & _ & Hchunks & Hfile & _).
  - vm_compute. do 15 apply list_elem_of_further. apply list_elem_of_here.
  - exists chunks. split; [exact Hchunks|exact Hfile].
Defined.

Lemma C8_witness :
  readable ({[ "a.ags" := "data" ]} : gmap string string) "a.ags"
  ∧ can_write (Platform := posix_platform) "a.ags" = true
  ∧ files_after (convert_command (ags4 := library_failing)
                   (platform := posix_platform) (rich := rich_console)
                   "a.ags" "a.ags" None None
                   {[ "a.ags" := "data" ]})
    !! "a.ags" = Some "".
Proof.
  assert (readable ({[ "a.ags" := "data" ]} : gmap string string) "a.ags") as Hin.
  { right. exists "data". reflexivity. }
  split; [exact Hin|]. split; [reflexivity|].
  destruct (C8_convert_command_opens_output_first (ags4 := library_failing)
              (platform := posix_platform) (rich := rich_console)
              "a.ags" "a.ags" None None
              {[ "a.ags" := "data" ]}
              ltac:(discriminate) Hin ltac:(discriminate) eq_refl)
    as [_ Hnoop].
  destruct (Hnoop eq_refl eq_refl) as (_ & _ & Hfile).
  exact Hfile.
Defined.

(** C8, as stated, fails: when the input file does not exist the command
    ends on the conversion of [input_file]; the output file is never
    opened, so an existing output keeps its content and a missing one is
    not created. *)
Lemma C8_counterexample :
  let fs : gmap string string := {[ "out.ags" := "old data" ]} in
  let r := convert_command (ags4 := library_double (Returns []))
             (platform := posix_platform) (rich := rich_console)
             "missing.ags" "out.ags" None None fs in
  let r' := convert_command (ags4 := library_double (Returns []))
              (platform := posix_platform) (rich := rich_console)
              "missing.ags" "new.txt" None None fs in
  result r = Raises (BadParameter "input_file" "missing.ags")
  ∧ events r = []
  ∧ files_after r !! "out.ags" = Some "old data"
  ∧ events r' = []
  ∧ files_after r' !! "new.txt" = None.
Proof. vm_compute. repeat split. Qed.

Lemma C9_witness :
  Py.endswith "a.xlsx" ".ags" = false
  ∧ events (check (ags4 := library_double (Returns sample_report))
              (platform := posix_platform) (rich := rich_console)
              "a.xlsx" "dict.ags" None ∅)
    = [ConsolePrint "[red]ERROR: Only .ags files are accepted as input.[/red]"].
Proof.
  split; [reflexivity|].
  destruct (C9_check_rejects_other_inputs
              (ags4 := library_double (Returns sample_report))
              (platform := posix_platform) (rich := rich_console)
              "a.xlsx" "dict.ags" None ∅ eq_refl)
    as [Hrun _].
  rewrite Hrun. reflexivity.
Defined.

Lemma C10_witness :
  Py.endswith "a.xlsx" ".xlsx" = true
  ∧ Py.endswith "a.ags" ".ags" = true
  ∧ conversion_calls
      (events (convert (ags4 := library_double (Returns [])) (rich := rich_console)
                 {| name := "a.xlsx" |} {| name := "a.ags" |} "ture" None ∅))
    = [CallExcelToAGS4 "a.xlsx" "a.ags" false None].
Proof.
  split; [reflexivity|]. split; [reflexivity|].
  destruct (C10_format_numeric_columns_flag (ags4 := library_double (Returns []))
              (rich := rich_console)
              {| name := "a.xlsx" |} {| name := "a.ags" |} (Some "ture") None ∅
              eq_refl eq_refl) as (flag & Hflag & _ & Hcalls).
  destruct (Hcalls ltac:(vm_compute; reflexivity) ltac:(vm_compute; reflexivity))
    as [Hcall _].
  destruct flag; [|exact Hcall].
  destruct (proj1 Hflag eq_refl) as [H|H]; exfalso;
    repeat (apply elem_of_cons in H as [H|H]; [discriminate H|]);
    by apply elem_of_nil in H.
Defined.

(** ** Further properties of [convert] *)

Section ConvertMore.

Context {ags4 : AGS4_library} {platform : Platform} {rich : Rich}.

Lemma pairing_true input_file output_file ext_in ext_out :
  pairing input_file output_file ext_in ext_out = true →
  Py.endswith input_file ext_in = true ∧ Py.endswith output_file ext_out = true.
Proof. unfold pairing. by intros ?%andb_true_iff. Qed.

Lemma pairing_ags_xlsx_not_xlsx_ags input_file output_file :
  pairing input_file output_file ".ags" ".xlsx" = true →
  pairing input_file output_file ".xlsx" ".ags" = false.
Proof.
  intros [Hi _]%pairing_true. unfold pairing.
  by rewrite (endswith_ags_not_xlsx _ Hi).
Qed.

(** X1: the [format_columns] and [dictionary] options matter only when an
    [.xlsx] file is converted to an [.ags] file: in every other case the
    run of [convert] is the same whatever their values. *)
Theorem convert_options_only_for_xlsx_to_ags (input_file output_file : File)
    (format_columns format_columns' : string) (dictionary dictionary' : option File)
    (fs : gmap string string) :
  pairing (name input_file) (name output_file) ".xlsx" ".ags" = false →
  convert input_file output_file format_columns dictionary fs
  = convert input_file output_file format_columns' dictionary' fs.
Proof.
  intros Hxa.
  destruct (pairing (name input_file) (name output_file) ".ags" ".xlsx") eqn:Hax.
  - apply pairing_true in Hax as [Hi Ho].
    by rewrite !convert_ags_to_xlsx_run.
  - by rewrite !convert_no_conversion_run.
Qed.

(** X2: when [convert] converts, in either direction, and returns, the
    completion message is its last event.  When it raises, the completion
    message is not printed, and either the console has refused one of the
    two opening messages and no conversion function was called, or the
    call of the conversion function is the last event and [convert] raises
    what the call raised. *)
Theorem convert_complete_iff_library_returns (input_file output_file : File)
    (format_columns : string) (dictionary : option File) (fs : gmap string string) :
  pairing (name input_file) (name output_file) ".ags" ".xlsx" = true
  ∨ pairing (name input_file) (name output_file) ".xlsx" ".ags" = true →
  let r := convert input_file output_file format_columns dictionary fs in
  (result r = Returns tt → last (events r) = Some (ConsolePrint complete_line))
  ∧ (∀ e, result r = Raises e →
       (ConsolePrint complete_line ∉ events r)
       ∧ ((conversion_calls (events r) = []
           ∧ (e = MarkupError (opening_line (name input_file))
              ∨ e = MarkupError (exporting_line (name output_file))))
          ∨ (markup_error (opening_line (name input_file)) = false
             ∧ markup_error (exporting_line (name output_file)) = false
             ∧ ∃ call, last (events r) = Some call
                 ∧ is_conversion_call call = true))).
Proof.
  intros Hpair r. subst r.
  change complete_line with msg_conversion_complete.
  change (opening_line (name input_file)) with (msg_opening (name input_file)).
  change (exporting_line (name output_file)) with (msg_exporting (name output_file)).
  destruct Hpair as [[Hi Ho]%pairing_true | [Hi Ho]%pairing_true].
  - rewrite convert_ags_to_xlsx_run by done. cbv zeta.
    destruct (markup_error (msg_opening _)).
    { split; [done|]. intros e [= <-]. split; [apply not_elem_of_nil|]. left. auto. }
    destruct (markup_error (msg_exporting _)).
    { cbn [result events]. split; [done|]. intros e [= <-]. split; [|left; auto].
      rewrite list_elem_of_singleton. intros H%console_print_inj. str_discr H. }
    destruct (lib_AGS4_to_excel _ _ fs) as [[[]|e'] fs'];
      cbn [fst snd result events app]; split; try done.
    intros e _. split; [|right; repeat split; by eexists].
    rewrite !elem_of_cons, elem_of_nil. intros H. by split_ors.
  - rewrite convert_xlsx_to_ags_run by done. cbv zeta.
    destruct (markup_error (msg_opening _)).
    { split; [done|]. intros e [= <-]. split; [apply not_elem_of_nil|]. left. auto. }
    destruct (markup_error (msg_exporting _)).
    { cbn [result events]. split; [done|]. intros e [= <-]. split; [|left; auto].
      rewrite list_elem_of_singleton. intros H%console_print_inj. str_discr H. }
    destruct (lib_excel_to_AGS4 _ _ _ _ fs) as [[[]|e'] fs'];
      cbn [fst snd result events app]; split; try done.
    intros e _. split; [|right; repeat split; by eexists].
    rewrite !elem_of_cons, elem_of_nil. intros H. by split_ors.
Qed.

(** X3: the four extension pairings are mutually exclusive: at most one of
    the tests of [convert] holds of a pair of paths, so the order of its
    branches decides nothing. *)
Theorem convert_pairings_exclusive (input_file output_file : string) :
  Nat.b2n (pairing input_file output_file ".ags" ".xlsx")
  + Nat.b2n (pairing input_file output_file ".xlsx" ".ags")
  + Nat.b2n (pairing input_file output_file ".ags" ".ags")
  + Nat.b2n (pairing input_file output_file ".xlsx" ".xlsx") ≤ 1.
Proof.
  unfold pairing.
  destruct (Py.endswith input_file ".ags") eqn:Hia;
    [rewrite (endswith_ags_not_xlsx _ Hia)|];
    (destruct (Py.endswith output_file ".ags") eqn:Hoa;
      [rewrite (endswith_ags_not_xlsx _ Hoa)|]);
    destruct (Py.endswith input_file ".xlsx"), (Py.endswith output_file ".xlsx");
    simpl; lia.
Qed.

(** An extension in capitals is neither [.ags] nor [.xlsx]. *)
Lemma endswith_upper_not_lower s :
  Py.endswith s ".AGS" = true ∨ Py.endswith s ".XLSX" = true →
  Py.endswith s ".ags" = false ∧ Py.endswith s ".xlsx" = false.
Proof.
  intros Hup.
  assert (last_char s = Some "S"%char ∨ last_char s = Some "X"%char) as Hlast.
  { destruct Hup as [H|H]; apply endswith_last_char in H; auto. }
  split.
  - destruct (Py.endswith s ".ags") eqn:H; [|done].
    apply endswith_last_char in H; [|done]. rewrite H in Hlast.
    by destruct Hlast.
  - destruct (Py.endswith s ".xlsx") eqn:H; [|done].
    apply endswith_last_char in H; [|done]. rewrite H in Hlast.
    by destruct Hlast.
Qed.

(** X4: the extension tests are case sensitive: an input whose name ends
    in [.AGS] or [.XLSX] is refused by [convert] with the
    [Invalid filenames] error, whatever the output, and no conversion
    function is called. *)
Theorem convert_extension_case_sensitive (input_file output_file : File)
    (format_columns : string) (dictionary : option File) (fs : gmap string string) :
  Py.endswith (name input_file) ".AGS" = true
  ∨ Py.endswith (name input_file) ".XLSX" = true →
  convert input_file output_file format_columns dictionary fs
  = Run (Returns tt) fs
      [ConsolePrint msg_invalid_filenames; ConsolePrint msg_try_help].
Proof.
  intros [Ha Hx]%endswith_upper_not_lower.
  rewrite convert_no_conversion_run; unfold pairing; rewrite ?Ha, ?Hx; done.
Qed.

End ConvertMore.

(** ** Further properties of the [convert] command *)

Section ConvertCommandMore.

Context {ags4 : AGS4_library} {platform : Platform} {rich : Rich}.

Lemma dictionary_param_run (dictionary : option string) fs :
  (∀ d, dictionary = Some d → readable fs d) →
  (match dictionary with
   | Some d => f <- click_File_r "dictionary" d ;; ret (Some f)
   | None => ret None
   end) fs
  = Run (Returns (File_r_of <$> dictionary)) fs
      (from_option open_r_events [] dictionary).
Proof.
  intros Hdict. destruct dictionary as [d|]; [|done].
  erewrite bind_returns by (apply click_File_r_run; by apply Hdict).
  unfold ret. cbn [result files_after events]. by rewrite app_nil_r.
Qed.

Lemma conversion_calls_open_r value : conversion_calls (open_r_events value) = [].
Proof. unfold open_r_events. by destruct (String.eqb value "-"). Qed.

Lemma conversion_calls_app t1 t2 :
  conversion_calls (t1 ++ t2) = conversion_calls t1 ++ conversion_calls t2.
Proof. apply List.filter_app. Qed.

Lemma conversion_calls_params (dictionary : option string) input_file :
  conversion_calls
    (from_option open_r_events [] dictionary ++ open_r_events input_file) = [].
Proof.
  rewrite conversion_calls_app, conversion_calls_open_r.
  destruct dictionary as [d|]; [|done]. cbn [from_option].
  by rewrite conversion_calls_open_r.
Qed.

(** X5: when a given dictionary opens for reading, an input file that does
    not exist ends the command on the conversion of [input_file], before
    the output file is looked at: the command raises the usage error of
    that parameter, opens nothing but the given dictionary, and leaves
    every file as it was. *)
Theorem convert_command_missing_input (input_file output_file : string)
    (format_columns : option string) (dictionary : option string)
    (fs : gmap string string) :
  (∀ d, dictionary = Some d → readable fs d) →
  input_file ≠ "-" →
  fs !! input_file = None →
  convert_command input_file output_file format_columns dictionary fs
  = Run (Raises (BadParameter "input_file" input_file)) fs
      (from_option open_r_events [] dictionary).
Proof.
  intros Hdict Hne Hnone. unfold convert_command.
  erewrite bind_returns by (by apply dictionary_param_run).
  erewrite bind_raises.
  - cbn [result files_after events]. by rewrite app_nil_r.
  - unfold click_File_r. rewrite Hnone.
    by destruct (String.eqb_spec input_file "-").
Qed.

(** X6: when a given dictionary and the input file open for reading, an
    output path that cannot be opened for writing is caught while the
    parameters are converted, before the callback starts: the command
    raises the usage error of [output_file], prints nothing, calls no
    conversion function and leaves every file as it was. *)
Theorem convert_command_unwritable_output (input_file output_file : string)
    (format_columns : option string) (dictionary : option string)
    (fs : gmap string string) :
  (∀ d, dictionary = Some d → readable fs d) →
  readable fs input_file →
  output_file ≠ "-" →
  can_write output_file = false →
  let r := convert_command input_file output_file format_columns dictionary fs in
  r = Run (Raises (BadParameter "output_file" output_file)) fs
        (from_option open_r_events [] dictionary ++ open_r_events input_file)
  ∧ conversion_calls (events r) = []
  ∧ List.filter is_console_print (events r) = [].
Proof.
  intros Hdict Hin Hne Hw r.
  assert (r = Run (Raises (BadParameter "output_file" output_file)) fs
        (from_option open_r_events [] dictionary ++ open_r_events input_file))
    as ->.
  { subst r. unfold convert_command.
    erewrite bind_returns by (by apply dictionary_param_run).
    erewrite bind_returns by (by apply click_File_r_run).
    erewrite bind_raises.
    - cbn [result files_after events]. by rewrite app_nil_r.
    - unfold click_File_w_eager. rewrite Hw.
      by destruct (String.eqb_spec output_file "-"). }
  split; [done|]. cbn [events]. split; [apply conversion_calls_params|].
  rewrite List.filter_app. unfold open_r_events.
  destruct dictionary as [d|]; cbn [from_option];
    repeat destruct (String.eqb _ "-"); done.
Qed.

(** X7: converting a file onto itself erases it.  When a given dictionary
    opens for reading and the input and the output arguments are the same
    existing, writable path, no conversion applies, whatever the
    extension, and the command returns with that file empty. *)
Theorem convert_command_onto_itself (path : string)
    (format_columns : option string) (dictionary : option string)
    (fs : gmap string string) :
  (∀ d, dictionary = Some d → readable fs d) →
  path ≠ "-" →
  is_Some (fs !! path) →
  can_write path = true →
  let r := convert_command path path format_columns dictionary fs in
  result r = Returns tt
  ∧ files_after r = <[path := ""]> fs
  ∧ conversion_calls (events r) = [].
Proof.
  intros Hdict Hne Hsome Hw r. subst r. unfold convert_command.
  erewrite bind_returns by (by apply dictionary_param_run).
  erewrite bind_returns by (apply click_File_r_run; by right).
  erewrite bind_returns by (by apply click_File_w_eager_run).
  cbn [result files_after events].
  assert (name (File_r_of path) = path) as Hname.
  { unfold File_r_of. cbn [name]. by destruct (String.eqb_spec path "-"). }
  rewrite convert_no_conversion_run; cbn [name]; rewrite ?Hname.
  - rewrite !conversion_calls_app, conversion_calls_open_r.
    destruct (_ || _); cbn [result files_after events]; (split; [done|]);
      (split; [done|]); destruct dictionary as [d|]; cbn [from_option];
      by rewrite ?conversion_calls_open_r.
  - unfold pairing. destruct (Py.endswith path ".ags") eqn:Ha; [|done].
    by rewrite (endswith_ags_not_xlsx _ Ha).
  - unfold pairing. destruct (Py.endswith path ".ags") eqn:Ha; [|by rewrite andb_false_r].
    by rewrite (endswith_ags_not_xlsx _ Ha).
Qed.

End ConvertCommandMore.


(** ** Further properties of [check], [print_to_screen] and [save_to_file] *)

Section CheckMore.

Context {ags4 : AGS4_library} {platform : Platform} {rich : Rich}.

Lemma filter_none {A} (f : A -> bool) (l : list A) :
  Forall (λ x, f x = false) l → List.filter f l = [].
Proof.
  induction 1 as [|x l Hx _ IH]; [done|]. cbn [List.filter]. by rewrite Hx.
Qed.

Lemma filter_prints (f : event -> bool) (ms : list string) :
  (∀ m, f (ConsolePrint m) = false) → List.filter f (ConsolePrint <$> ms) = [].
Proof.
  intros Hf. apply filter_none, Forall_fmap, Forall_forall. intros m _. apply Hf.
Qed.

Lemma filter_prints_all (ms : list string) :
  List.filter is_console_print (ConsolePrint <$> ms) = ConsolePrint <$> ms.
Proof. induction ms as [|m ms IH]; [done|]. cbn. by rewrite IH. Qed.

Lemma filter_save_events (f : event -> bool) path input_file n (d : report) :
  (∀ p mode, f (FileOpen p mode) = false) →
  (∀ p text, f (FileWrite p text) = false) →
  (∀ p, f (FileClose p) = false) →
  List.filter f (save_events path input_file n d) = [].
Proof.
  intros Hopen Hwrite Hclose. apply filter_none. unfold save_events.
  constructor; [apply Hopen|]. apply Forall_app.
  split; [|constructor; [apply Hclose|constructor]].
  apply Forall_fmap, Forall_forall. intros m _. apply Hwrite.
Qed.


Lemma check_checker_raises_run input_file dictionary output_file fs e fs1 :
  Py.endswith input_file ".ags" = true →
  markup_error (opening_line input_file) = false →
  lib_check_file input_file dictionary fs = (Raises e, fs1) →
  check input_file dictionary output_file fs
  = Run (Raises e) fs1 (checker_events input_file dictionary).
Proof.
  intros Hags Hopen Hlib. rewrite check_checker_run by done. by rewrite Hlib.
Qed.

Lemma check_no_errors_run input_file dictionary output_file fs fs1 :
  Py.endswith input_file ".ags" = true →
  markup_error (opening_line input_file) = false →
  lib_check_file input_file dictionary fs = (Returns [], fs1) →
  check input_file dictionary output_file fs
  = Run (Returns tt) fs1
      (checker_events input_file dictionary ++ [ConsolePrint no_errors_line]).
Proof.
  intros Hags Hopen Hlib. rewrite check_checker_run by done. rewrite Hlib.
  cbv zeta. cbn [fst snd].
  by rewrite console_print_accepted by apply accepts_no_errors.
Qed.

(** X8: when the checker finds nothing, [check] prints that no errors
    were found, for an input path the console accepts in the opening
    message, and writes no file, also when [-o] names one: the files are
    those the checker left. *)
Theorem check_no_errors_writes_nothing (input_file dictionary : string)
    (output_file : option string) (fs fs1 : gmap string string) :
  Py.endswith input_file ".ags" = true →
  markup_error (opening_line input_file) = false →
  lib_check_file input_file dictionary fs = (Returns [], fs1) →
  let r := check input_file dictionary output_file fs in
  r = Run (Returns tt) fs1
        (checker_events input_file dictionary ++ [ConsolePrint no_errors_line])
  ∧ List.filter is_file_event (events r) = [].
Proof.
  intros Hags Hopen Hlib r. subst r.
  by rewrite (check_no_errors_run _ _ _ _ fs1).
Qed.

(** X9: when the checker raises, on an input path the console accepts in
    the opening message, [check] raises the same exception; the status
    display is stopped all the same, no report and no count is printed and
    no file is written. *)
Theorem check_checker_raises (input_file dictionary : string)
    (output_file : option string) (fs fs1 : gmap string string) (e : exn) :
  Py.endswith input_file ".ags" = true →
  markup_error (opening_line input_file) = false →
  lib_check_file input_file dictionary fs = (Raises e, fs1) →
  let r := check input_file dictionary output_file fs in
  r = Run (Raises e) fs1 (checker_events input_file dictionary)
  ∧ last (events r) = Some StatusStop
  ∧ List.filter is_console_print (events r)
    = [ConsolePrint (opening_line input_file); ConsolePrint ""]
  ∧ List.filter is_file_event (events r) = [].
Proof.
  intros Hags Hopen Hlib r. subst r.
  by rewrite (check_checker_raises_run _ _ _ _ e fs1).
Qed.

Lemma check_calls_saved_run path input_file n (d : report) message fs evs :
  check_calls (events (saved_run path input_file n d message fs evs))
  = check_calls evs.
Proof.
  unfold saved_run, check_calls. destruct (can_write path); [|done].
  destruct (markup_error message); cbn [events];
    rewrite !List.filter_app, filter_save_events by done;
    cbn; by rewrite ?app_nil_r.
Qed.

(** X10: on an [.ags] input [check] calls the checker exactly once, with
    the input path and the dictionary path, whatever the checker answers
    and whatever is then printed or saved; unless the console refuses the
    input path in the opening message: then the checker is not called. *)
Theorem check_calls_checker_once (input_file dictionary : string)
    (output_file : option string) (fs : gmap string string) :
  Py.endswith input_file ".ags" = true →
  (∀ d fs1, lib_check_file input_file dictionary fs = (Returns d, fs1) → dict_wf d) →
  check_calls (events (check input_file dictionary output_file fs))
  = if markup_error (opening_line input_file) then []
    else [CallCheckFile input_file dictionary].
Proof.
  intros Hags Hwf.
  destruct (markup_error (opening_line input_file)) eqn:Hopen.
  { by rewrite check_opening_refused_run. }
  destruct (lib_check_file input_file dictionary fs) as [[d|e] fs1] eqn:Hlib.
  - destruct (decide (d = [])) as [->|Hne].
    + by rewrite (check_no_errors_run _ _ _ _ fs1).
    + rewrite (check_report_run _ _ _ _ d fs1) by eauto. cbv zeta.
      destruct (console_run_events (screen_lines d)) as [k Hshown].
      destruct (_ <? 100).
      * destruct (console_run (screen_lines d)) as [[[]|e] shown];
          cbn [fst snd] in *; subst shown;
          [destruct output_file as [o|]|];
          rewrite ?check_calls_saved_run; cbn [events]; unfold check_calls;
          rewrite !List.filter_app, ?filter_prints by done; done.
      * by rewrite check_calls_saved_run.
  - by rewrite (check_checker_raises_run _ _ _ _ e fs1).
Qed.

(** X11: with fewer than 100 errors and no [-o] option, [check] writes no
    file: the files are those the checker left.  When the console accepts
    every line of the report, [check] prints the report and then the
    count, and returns. *)
Theorem check_short_report_without_output (input_file dictionary : string)
    (fs : gmap string string) (ags_errors : report) (fs1 : gmap string string) :
  Py.endswith input_file ".ags" = true →
  markup_error (opening_line input_file) = false →
  lib_check_file input_file dictionary fs = (Returns ags_errors, fs1) →
  dict_wf ags_errors →
  ags_errors ≠ [] →
  report_total ags_errors < 100 →
  let r := check input_file dictionary None fs in
  files_after r = fs1
  ∧ List.filter is_file_event (events r) = []
  ∧ ∃ lines, report_shown lines ags_errors
      ∧ (Forall (λ line, markup_error line = false) lines →
         r = Run (Returns tt) fs1
               (checker_events input_file dictionary ++ (ConsolePrint <$> lines)
                ++ [ConsolePrint (count_line (report_total ags_errors))])).
Proof.
  intros Hags Hopen Hlib Hwf Hne Hlt%Nat.ltb_lt r. subst r.
  rewrite (check_report_run _ _ _ _ ags_errors fs1) by done.
  cbv zeta. rewrite Hlt.
  destruct (console_run_events (screen_lines ags_errors)) as [k Hshown].
  split; [|split].
  - by destruct (console_run (screen_lines ags_errors)) as [[[]|e] shown].
  - destruct (console_run (screen_lines ags_errors)) as [[[]|e] shown];
      cbn [fst snd events] in *; subst shown;
      rewrite !List.filter_app, ?filter_prints by done; done.
  - exists (screen_lines ags_errors). split; [apply screen_lines_shown|].
    intros Hacc. by rewrite console_run_accepted.
Qed.

(** X12: with fewer than 100 errors and a [-o] option, when the console
    accepts every line of the report, [check] first prints the whole
    report and the count; then it saves the log in that file and reports
    it (or raises the markup error of that last message), or, when the
    file cannot be opened, raises the error of that path with the files as
    the checker left them. *)
Theorem check_short_report_with_output (input_file dictionary o : string)
    (fs : gmap string string) (ags_errors : report) (fs1 : gmap string string) :
  Py.endswith input_file ".ags" = true →
  markup_error (opening_line input_file) = false →
  lib_check_file input_file dictionary fs = (Returns ags_errors, fs1) →
  dict_wf ags_errors →
  ags_errors ≠ [] →
  report_total ags_errors < 100 →
  let r := check input_file dictionary (Some o) fs in
  let n := report_total ags_errors in
  ∃ lines, report_shown lines ags_errors
    ∧ (Forall (λ line, markup_error line = false) lines →
       let printed := checker_events input_file dictionary
                      ++ (ConsolePrint <$> lines) ++ [ConsolePrint (count_line n)] in
       if can_write o then
         ∃ chunks, log_written chunks input_file n ags_errors
           ∧ r = Run (if markup_error (saved_dot_line o)
                      then Raises (MarkupError (saved_dot_line o)) else Returns tt)
                   (<[o := str_concat chunks]> fs1)
                   (printed ++ FileOpen o ModeW :: (FileWrite o <$> chunks)
                    ++ FileClose o
                       :: (if markup_error (saved_dot_line o) then []
                           else [ConsolePrint (saved_dot_line o)]))
       else
         r = Run (Raises (OSError o)) fs1 printed).
Proof.
  intros Hags Hopen Hlib Hwf Hne Hlt%Nat.ltb_lt r n. subst r.
  rewrite (check_report_run _ _ _ _ ags_errors fs1) by done.
  cbv zeta. rewrite Hlt. fold n.
  exists (screen_lines ags_errors). split; [apply screen_lines_shown|].
  intros Hacc. rewrite console_run_accepted by done. cbn [fst snd].
  unfold saved_run. destruct (can_write o); [|done].
  exists (log_chunks input_file n ags_errors).
  split; [apply log_chunks_written|].
  change (msg_saved_dot o) with (saved_dot_line o).
  destruct (markup_error (saved_dot_line o)); unfold save_events;
    f_equal; by rewrite <- ?app_assoc, <- ?app_comm_cons, <- ?app_assoc.
Qed.


(** X14: [save_to_file] overwrites: when the path can be opened the file
    holds the log afterwards whatever it held before, and every other file
    is untouched; when it cannot, the call raises the error of that path
    and changes nothing. *)
Theorem save_to_file_overwrites (path input_file : string) (ags_errors : report)
    (error_count : nat) (fs : gmap string string) :
  dict_wf ags_errors →
  let r := save_to_file path ags_errors input_file error_count fs in
  if can_write path then
    result r = Returns tt
    ∧ files_after r !! path
      = Some (log_text input_file error_count ags_errors)
    ∧ (∀ p, p ≠ path → files_after r !! p = fs !! p)
    ∧ (∀ old, files_after
                (save_to_file path ags_errors input_file error_count
                   (<[path := old]> fs))
              = files_after r)
  else
    r = Run (Raises (OSError path)) fs [].
Proof.
  intros Hwf r. subst r.
  rewrite save_to_file_run by done.
  destruct (can_write path) eqn:Hw; [|done]. cbn [result files_after].
  split; [done|]. split; [apply lookup_insert_eq|]. split.
  - intros p Hp. by apply lookup_insert_ne.
  - intros old. rewrite save_to_file_run, Hw by done. cbn [files_after].
    apply insert_insert_eq.
Qed.


(** X17: an input path the console refuses in the opening message (a
    closing tag in the path that closes nothing) ends [check] with the
    markup error of that message: nothing is printed, the checker is not
    called and no file is written. *)
Theorem check_refused_path (input_file dictionary : string)
    (output_file : option string) (fs : gmap string string) :
  Py.endswith input_file ".ags" = true →
  markup_error (opening_line input_file) = true →
  check input_file dictionary output_file fs
  = Run (Raises (MarkupError (opening_line input_file))) fs [].
Proof. intros Hags Hopen. by apply check_opening_refused_run. Qed.

End CheckMore.

(** ** The group label of a record *)

Section Labels.

(** X16: the label [print_to_screen] and [save_to_file] show for a record
    is its group without the double quotes around it: the group is the
    label between two runs of double quotes, and the label neither starts
    nor ends with one; quotes inside the label are kept. *)
Theorem entry_label_spec (e : entry) :
  ∃ (label : string) (n m : nat),
    entry_group e
    = repeat_char n Py.DQUOTE +:+ label +:+ repeat_char m Py.DQUOTE
    ∧ first_char label ≠ Some Py.DQUOTE
    ∧ last_char label ≠ Some Py.DQUOTE
    ∧ screen_entry e
      = "  Line " +:+ fmt_line (entry_line e) +:+ Py.TAB +:+ " [bold]" +:+ label
        +:+ "[/bold]" +:+ Py.TAB +:+ " " +:+ entry_desc e
    ∧ log_entry e
      = "  Line " +:+ fmt_line (entry_line e) +:+ Py.TAB +:+ " " +:+ label
        +:+ Py.TAB +:+ " " +:+ entry_desc e +:+ Py.LF.
Proof.
  destruct (lstrip_spec Py.DQUOTE (entry_group e)) as (n & Hl & Hfirst).
  destruct (rstrip_spec Py.DQUOTE (Py.lstrip Py.DQUOTE (entry_group e)))
    as (m & Hr & Hlast & Hkeep).
  exists (Py.strip Py.DQUOTE (entry_group e)), n, m. unfold Py.strip.
  split; [by rewrite <- Hr|]. split; [by apply Hkeep|]. done.
Qed.

End Labels.

(** ** The paths the console accepts *)

Section AcceptedPaths.

Context {ags4 : AGS4_library} {platform : Platform} {rich : Rich}.

(** X18: when [convert] converts, in either direction, and the console
    refuses the input path in the first message or the output path in the
    second, [convert] raises the markup error of that message, having
    printed only what comes before it; no conversion function is called
    and no file changes. *)
Theorem convert_refused_path (input_file output_file : File)
    (format_columns : string) (dictionary : option File) (fs : gmap string string) :
  pairing (name input_file) (name output_file) ".ags" ".xlsx" = true
  ∨ pairing (name input_file) (name output_file) ".xlsx" ".ags" = true →
  markup_error (opening_line (name input_file)) = true
  ∨ markup_error (exporting_line (name output_file)) = true →
  let r := convert input_file output_file format_columns dictionary fs in
  r = (if markup_error (opening_line (name input_file))
       then Run (Raises (MarkupError (opening_line (name input_file)))) fs []
       else Run (Raises (MarkupError (exporting_line (name output_file)))) fs
              [ConsolePrint (opening_line (name input_file))])
  ∧ conversion_calls (events r) = [].
Proof.
  intros Hpair Hrefused r.
  assert (r = (if markup_error (opening_line (name input_file))
       then Run (Raises (MarkupError (opening_line (name input_file)))) fs []
       else Run (Raises (MarkupError (exporting_line (name output_file)))) fs
              [ConsolePrint (opening_line (name input_file))])) as ->.
  { subst r.
    destruct Hpair as [[Hi Ho]%pairing_true | [Hi Ho]%pairing_true];
      [rewrite convert_ags_to_xlsx_run by done
      |rewrite convert_xlsx_to_ags_run by done];
      change (msg_opening (name input_file)) with (opening_line (name input_file));
      change (msg_exporting (name output_file))
        with (exporting_line (name output_file));
      destruct (markup_error (opening_line _)) eqn:Hopen; [done| |done|];
      (destruct Hrefused as [H|H]; [congruence|by rewrite H]). }
  split; [done|]. by destruct (markup_error (opening_line _)).
Qed.

(** X19: a path without an opening bracket and without a backslash is
    accepted by every console in each of the messages that show a path:
    the two opening messages of [convert], the opening message of [check]
    and the two messages of the saved log. *)
Theorem plain_path_accepted (path : string) :
  all_chars plain_char path = true →
  markup_error (opening_line path) = false
  ∧ markup_error (exporting_line path) = false
  ∧ markup_error (saved_line path) = false
  ∧ markup_error (saved_dot_line path) = false.
Proof.
  intros Hplain. unfold markup_error. repeat split.
  - assert (tags_from 0 0 (opening_line path)
            = ["green"; "bold"; "/bold"; "/green"]) as ->.
    { transitivity ("green" :: "bold"
                    :: tags_from 0 0 (path +:+ "[/bold][/green]"));
        [reflexivity|].
      rewrite tags_from_plain by done. reflexivity. }
    repeat first
      [ rewrite stack_error_close by (vm_compute; reflexivity)
      | rewrite stack_error_open by (vm_compute; reflexivity) ].
    reflexivity.
  - assert (tags_from 0 0 (exporting_line path)
            = ["green"; "bold"; "/bold"; "/green"]) as ->.
    { transitivity ("green" :: "bold"
                    :: tags_from 0 0 (path +:+ "[/bold][/green]"));
        [reflexivity|].
      rewrite tags_from_plain by done. reflexivity. }
    repeat first
      [ rewrite stack_error_close by (vm_compute; reflexivity)
      | rewrite stack_error_open by (vm_compute; reflexivity) ].
    reflexivity.
  - assert (tags_from 0 0 (saved_line path) = ["yellow"; "/yellow"]) as ->.
    { transitivity ("yellow"
                    :: tags_from 0 0 (path +:+ "[/yellow]" +:+ Py.LF));
        [reflexivity|].
      rewrite tags_from_plain by done. reflexivity. }
    repeat first
      [ rewrite stack_error_close by (vm_compute; reflexivity)
      | rewrite stack_error_open by (vm_compute; reflexivity) ].
    reflexivity.
  - assert (tags_from 0 0 (saved_dot_line path) = ["yellow"; "/yellow"]) as ->.
    { transitivity ("yellow"
                    :: tags_from 0 0 (path +:+ ".[/yellow]" +:+ Py.LF));
        [reflexivity|].
      rewrite tags_from_plain by done. reflexivity. }
    repeat first
      [ rewrite stack_error_close by (vm_compute; reflexivity)
      | rewrite stack_error_open by (vm_compute; reflexivity) ].
    reflexivity.
Qed.

End AcceptedPaths.

(** ** The further properties on concrete runs *)

Lemma convert_options_only_for_xlsx_to_ags_witness :
  pairing "a.ags" "a.xlsx" ".xlsx" ".ags" = false
  ∧ convert (ags4 := library_double (Returns [])) (rich := rich_console)
      {| name := "a.ags" |} {| name := "a.xlsx" |} "true" None ∅
    = convert (ags4 := library_double (Returns [])) (rich := rich_console)
        {| name := "a.ags" |} {| name := "a.xlsx" |} "no"
        (Some {| name := "dict.ags" |}) ∅.
Proof.
  split; [reflexivity|].
  exact (convert_options_only_for_xlsx_to_ags
           (ags4 := library_double (Returns [])) (rich := rich_console)
           {| name := "a.ags" |} {| name := "a.xlsx" |} "true" "no" None
           (Some {| name := "dict.ags" |}) ∅ eq_refl).
Defined.

Lemma convert_complete_iff_library_returns_witness :
  pairing "a.xlsx" "a.ags" ".xlsx" ".ags" = true
  ∧ ConsolePrint complete_line
    ∉ events (convert (ags4 := library_failing) (rich := rich_console)
                {| name := "a.xlsx" |} {| name := "a.ags" |} "true" None ∅).
Proof.
  split; [reflexivity|].
  destruct (convert_complete_iff_library_returns (ags4 := library_failing)
              (rich := rich_console)
              {| name := "a.xlsx" |} {| name := "a.ags" |} "true" None ∅
              (or_intror eq_refl)) as [_ Hraise].
  exact (proj1 (Hraise (LibraryError "excel_to_AGS4") eq_refl)).
Defined.

Lemma convert_extension_case_sensitive_witness :
  Py.endswith "DATA.AGS" ".AGS" = true
  ∧ conversion_calls
      (events (convert (ags4 := library_double (Returns [])) (rich := rich_console)
                 {| name := "DATA.AGS" |} {| name := "data.xlsx" |} "true" None ∅))
    = [].
Proof.
  split; [reflexivity|].
  rewrite (convert_extension_case_sensitive (ags4 := library_double (Returns []))
             (rich := rich_console)
             {| name := "DATA.AGS" |} {| name := "data.xlsx" |} "true" None ∅
             (or_introl eq_refl)).
  reflexivity.
Defined.

Lemma convert_command_missing_input_witness :
  ({[ "out.xlsx" := "old" ]} : gmap string string) !! "in.ags" = None
  ∧ files_after (convert_command (ags4 := library_double (Returns []))
                   (platform := posix_platform) (rich := rich_console)
                   "in.ags" "out.xlsx" None None
                   {[ "out.xlsx" := "old" ]})
    !! "out.xlsx" = Some "old".
Proof.
  split; [reflexivity|].
  rewrite (convert_command_missing_input (ags4 := library_double (Returns []))
             (platform := posix_platform) (rich := rich_console)
             "in.ags" "out.xlsx" None None
             {[ "out.xlsx" := "old" ]}
             ltac:(discriminate) ltac:(discriminate) eq_refl).
  reflexivity.
Defined.

Lemma convert_command_unwritable_output_witness :
  readable ({[ "a.ags" := "data" ]} : gmap string string) "a.ags"
  ∧ can_write (Platform := posix_platform) "/proc/a.xlsx" = false
  ∧ result (convert_command (ags4 := library_double (Returns []))
              (platform := posix_platform) (rich := rich_console)
              "a.ags" "/proc/a.xlsx" None None
              {[ "a.ags" := "data" ]})
    = Raises (BadParameter "output_file" "/proc/a.xlsx").
Proof.
  assert (readable ({[ "a.ags" := "data" ]} : gmap string string) "a.ags") as Hin.
  { right. exists "data". reflexivity. }
  split; [exact Hin|]. split; [reflexivity|].
  destruct (convert_command_unwritable_output
              (ags4 := library_double (Returns []))
              (platform := posix_platform) (rich := rich_console)
              "a.ags" "/proc/a.xlsx" None None
              {[ "a.ags" := "data" ]}
              ltac:(discriminate) Hin ltac:(discriminate) eq_refl) as [Hrun _].
  rewrite Hrun. reflexivity.
Defined.

Lemma convert_command_onto_itself_witness :
  is_Some (({[ "a.xlsx" := "sheet" ]} : gmap string string) !! "a.xlsx")
  ∧ files_after (convert_command (ags4 := library_double (Returns []))
                   (platform := posix_platform) (rich := rich_console)
                   "a.xlsx" "a.xlsx" None None
                   {[ "a.xlsx" := "sheet" ]})
    = <[ "a.xlsx" := "" ]> {[ "a.xlsx" := "sheet" ]}.
Proof.
  assert (is_Some (({[ "a.xlsx" := "sheet" ]} : gmap string string) !! "a.xlsx"))
    as Hsome by (exists "sheet"; reflexivity).
  split; [exact Hsome|].
  destruct (convert_command_onto_itself (ags4 := library_double (Returns []))
              (platform := posix_platform) (rich := rich_console)
              "a.xlsx" None None
              {[ "a.xlsx" := "sheet" ]}
              ltac:(discriminate) ltac:(discriminate) Hsome eq_refl)
    as (_ & Hfiles & _).
  exact Hfiles.
Defined.

Lemma check_no_errors_writes_nothing_witness :
  Py.endswith "d/a.ags" ".ags" = true
  ∧ markup_error (rich := rich_console) (opening_line "d/a.ags") = false
  ∧ files_after (check (ags4 := library_double (Returns []))
                   (platform := posix_platform) (rich := rich_console)
                   "d/a.ags" "dict.ags" (Some "log.txt") ∅)
    = ∅.
Proof.
  split; [reflexivity|]. split; [vm_compute; reflexivity|].
  destruct (check_no_errors_writes_nothing (ags4 := library_double (Returns []))
              (platform := posix_platform) (rich := rich_console)
              "d/a.ags" "dict.ags" (Some "log.txt")
              ∅ ∅ eq_refl ltac:(vm_compute; reflexivity) eq_refl) as [Hrun _].
  rewrite Hrun. reflexivity.
Defined.

Lemma check_checker_raises_witness :
  Py.endswith "d/a.ags" ".ags" = true
  ∧ markup_error (rich := rich_console) (opening_line "d/a.ags") = false
  ∧ result (check (ags4 := library_failing) (platform := posix_platform)
              (rich := rich_console) "d/a.ags" "dict.ags" (Some "log.txt") ∅)
    = Raises (LibraryError "check_file").
Proof.
  split; [reflexivity|]. split; [vm_compute; reflexivity|].
  destruct (check_checker_raises (ags4 := library_failing)
              (platform := posix_platform) (rich := rich_console)
              "d/a.ags" "dict.ags" (Some "log.txt")
              ∅ ∅ (LibraryError "check_file") eq_refl
              ltac:(vm_compute; reflexivity) eq_refl) as [Hrun _].
  rewrite Hrun. reflexivity.
Defined.

Lemma check_calls_checker_once_witness :
  dict_wf long_report
  ∧ check_calls
      (events (check (ags4 := library_double (Returns long_report))
                 (platform := posix_platform) (rich := rich_console)
                 "d/a.ags" "dict.ags" None ∅))
    = [CallCheckFile "d/a.ags" "dict.ags"].
Proof.
  assert (dict_wf long_report) as Hwf
    by (unfold dict_wf; apply (bool_decide_unpack _); vm_compute; exact I).
  split; [exact Hwf|].
  rewrite (check_calls_checker_once (ags4 := library_double (Returns long_report))
             (platform := posix_platform) (rich := rich_console)
             "d/a.ags" "dict.ags" None ∅ eq_refl).
  - vm_compute. reflexivity.
  - intros d fs1 Heq. injection Heq as <- _. exact Hwf.
Defined.

Lemma check_short_report_without_output_witness :
  dict_wf sample_report
  ∧ report_total sample_report < 100
  ∧ files_after (check (ags4 := library_double (Returns sample_report))
                   (platform := posix_platform) (rich := rich_console)
                   "d/a.ags" "dict.ags" None
                   {[ "d/a.ags" := "data" ]})
    = {[ "d/a.ags" := "data" ]}.
Proof.
  assert (dict_wf sample_report) as Hwf
    by (unfold dict_wf; apply (bool_decide_unpack _); vm_compute; exact I).
  assert (report_total sample_report < 100) as Hlt by (vm_compute; lia).
  split; [exact Hwf|]. split; [exact Hlt|].
  destruct (check_short_report_without_output
              (ags4 := library_double (Returns sample_report))
              (platform := posix_platform) (rich := rich_console)
              "d/a.ags" "dict.ags"
              {[ "d/a.ags" := "data" ]} sample_report {[ "d/a.ags" := "data" ]}
              eq_refl ltac:(vm_compute; reflexivity) eq_refl Hwf
              ltac:(discriminate) Hlt) as (Hfiles & _).
  exact Hfiles.
Defined.

Lemma check_short_report_with_output_witness :
  dict_wf sample_report
  ∧ report_total sample_report < 100
  ∧ ∃ lines, report_shown lines sample_report
      ∧ (Forall (λ line, markup_error (rich := rich_console) line = false) lines →
         result (check (ags4 := library_double (Returns sample_report))
                   (platform := posix_platform) (rich := rich_console)
                   "d/a.ags" "dict.ags" (Some "/proc/log.txt") ∅)
         = Raises (OSError "/proc/log.txt")).
Proof.
  assert (dict_wf sample_report) as Hwf
    by (unfold dict_wf; apply (bool_decide_unpack _); vm_compute; exact I).
  assert (report_total sample_report < 100) as Hlt by (vm_compute; lia).
  split; [exact Hwf|]. split; [exact Hlt|].
  destruct (check_short_report_with_output
              (ags4 := library_double (Returns sample_report))
              (platform := posix_platform) (rich := rich_console)
              "d/a.ags" "dict.ags" "/proc/log.txt"
              ∅ sample_report ∅ eq_refl ltac:(vm_compute; reflexivity) eq_refl
              Hwf ltac:(discriminate) Hlt)
    as (lines & Hshown & Hrun).
  exists lines. split; [exact Hshown|]. intros Hacc.
  specialize (Hrun Hacc).
  cbv zeta in Hrun. change (can_write _) with false in Hrun. cbv iota in Hrun.
  rewrite Hrun. reflexivity.
Defined.


Lemma save_to_file_overwrites_witness :
  dict_wf sample_report
  ∧ files_after (save_to_file (platform := posix_platform) "log.txt" sample_report
                   "d/a.ags" 3 {[ "log.txt" := "earlier log" ]})
    !! "log.txt"
    = Some (log_text "d/a.ags" 3 sample_report).
Proof.
  assert (dict_wf sample_report) as Hwf
    by (unfold dict_wf; apply (bool_decide_unpack _); vm_compute; exact I).
  split; [exact Hwf|].
  pose proof (save_to_file_overwrites (platform := posix_platform) "log.txt"
                "d/a.ags" sample_report 3 {[ "log.txt" := "earlier log" ]} Hwf)
    as Hsave.
  cbv zeta in Hsave. change (can_write _) with true in Hsave. cbv iota in Hsave.
  exact (proj1 (proj2 Hsave)).
Defined.


Lemma check_refused_path_witness :
  Py.endswith "d[/x]/a.ags" ".ags" = true
  ∧ markup_error (rich := rich_console) (opening_line "d[/x]/a.ags") = true
  ∧ events (check (ags4 := library_double (Returns sample_report))
              (platform := posix_platform) (rich := rich_console)
              "d[/x]/a.ags" "dict.ags" None ∅)
    = [].
Proof.
  split; [reflexivity|]. split; [vm_compute; reflexivity|].
  rewrite (check_refused_path (ags4 := library_double (Returns sample_report))
             (platform := posix_platform) (rich := rich_console)
             "d[/x]/a.ags" "dict.ags" None ∅ eq_refl
             ltac:(vm_compute; reflexivity)).
  reflexivity.
Defined.

Lemma convert_refused_path_witness :
  pairing "a.ags" "o[/u]t.xlsx" ".ags" ".xlsx" = true
  ∧ markup_error (rich := rich_console) (exporting_line "o[/u]t.xlsx") = true
  ∧ events (convert (ags4 := library_double (Returns [])) (rich := rich_console)
              {| name := "a.ags" |} {| name := "o[/u]t.xlsx" |} "true" None ∅)
    = [ConsolePrint (opening_line "a.ags")].
Proof.
  assert (markup_error (rich := rich_console) (exporting_line "o[/u]t.xlsx") = true)
    as Hrefused by (vm_compute; reflexivity).
  split; [reflexivity|]. split; [exact Hrefused|].
  pose proof (convert_refused_path (ags4 := library_double (Returns []))
                (rich := rich_console)
                {| name := "a.ags" |} {| name := "o[/u]t.xlsx" |} "true" None ∅
                (or_introl eq_refl) (or_intror Hrefused)) as Hrun.
  cbv zeta in Hrun. rewrite (proj1 Hrun). vm_compute. reflexivity.
Defined.

Lemma plain_path_accepted_witness :
  all_chars plain_char "data/site 1/a.ags" = true
  ∧ markup_error (rich := rich_console) (opening_line "data/site 1/a.ags") = false.
Proof.
  split; [reflexivity|].
  exact (proj1 (plain_path_accepted (rich := rich_console) "data/site 1/a.ags"
                  eq_refl)).
Defined.
